(** * LUNA USB 2.0 endpoint transaction engine: gateware model and properties

    A shallow embedding of the nMigen gateware in
      - [luna/gateware/usb/usb2/interfaces/eptri.py]
        ([SetupFIFOInterface], [InFIFOInterface], [OutFIFOInterface]) and
      - [luna/gateware/usb/usb2/endpoints/stream.py]
        ([USBStreamOutEndpoint]).

    Every elaboratable is a synchronous circuit.  It is modelled by
      - a record of registers ([State]), the signals driven from the clocked
        domain ([m.d.usb += ...]);
      - a record of the signals it samples in one clock tick ([Inputs]);
      - [comb], the combinational outputs of the tick ([m.d.comb += ...]),
        a pure function of the registers and the inputs; a combinational
        signal that no active statement drives has its reset value 0;
      - [tick], the registers after the clock edge.  When several active
        statements drive one register, the one latest in program order wins.

    Signals are [bool] when one bit wide and [Z] otherwise, truncated to the
    width of the signal that stores them. *)

From Stdlib Require Import ZArith Bool List Lia String.
From stdpp Require Import base list.
Import ListNotations.
Open Scope Z_scope.

(** ** Signals *)

(** Storing a value into a [w]-bit signal keeps its low [w] bits. *)
Definition trunc (w : Z) (x : Z) : Z := Z.land x (Z.ones w).

(** [bits_for n]: the width nMigen gives to [Signal(range(0, n + 1))]. *)
Definition bits_for (n : Z) : Z := Z.log2 n + 1.

(** The token detector's view of the most recent token, as the endpoint
    interfaces read it ([interface.tokenizer]). [endpoint] is four bits wide. *)
Record TokenDetectorInterface := {
  endpoint           : Z;
  new_token          : bool;
  ready_for_response : bool;
  is_in              : bool;
  is_out             : bool;
  is_setup           : bool;
  is_ping            : bool
}.

(** [Array(Signal() for _ in range(16))] indexed by a four-bit signal. *)
Definition stall_array := list bool.

Definition no_stalls : stall_array := replicate 16 false.

Definition array_get (a : stall_array) (i : Z) : bool :=
  default false (a !! Z.to_nat (trunc 4 i)).

Definition array_set (a : stall_array) (i : Z) (v : bool) : stall_array :=
  <[Z.to_nat (trunc 4 i) := v]> a.

(** ** nMigen's [SyncFIFOBuffered]

    The library FIFO the [eptri] interfaces instantiate: a first-word
    fall-through queue made of a synchronous queue of [depth - 1] entries
    followed by an output register.  [storage] is the inner queue, [r_data]
    the output register and [r_rdy] says whether it holds an unread entry.
    [ResetInserter] returns the queue to its reset state (empty, output
    register 0) on the tick in which the reset signal is high, whatever else
    is requested. *)
Module SyncFIFOBuffered.

Record t := {
  storage : list Z;
  r_data  : Z;
  r_rdy   : bool
}.

Definition reset_value : t :=
  {| storage := []; r_data := 0; r_rdy := false |}.

Definition inner_r_rdy (f : t) : bool :=
  match storage f with [] => false | _ :: _ => true end.

Definition w_rdy (depth : Z) (f : t) : bool :=
  Z.of_nat (length (storage f)) <? depth - 1.

Definition level (f : t) : Z :=
  Z.of_nat (length (storage f)) + Z.b2z (r_rdy f).

(** All entries not yet read, oldest first. *)
Definition contents (f : t) : list Z :=
  (if r_rdy f then [r_data f] else []) ++ storage f.

Definition tick (depth : Z) (f : t)
    (rst w_en : bool) (w_data : Z) (r_en : bool) : t :=
  if rst then
    {| storage := []; r_data := 0; r_rdy := false |}
  else
    let do_write   := w_en && w_rdy depth f in
    let inner_r_en := inner_r_rdy f && (negb (r_rdy f) || r_en) in
    let kept       := if inner_r_en then tail (storage f) else storage f in
    {| storage := if do_write then kept ++ [trunc 8 w_data] else kept;
       r_data  := if inner_r_en then hd 0 (storage f) else r_data f;
       r_rdy   := if inner_r_en then true
                  else if r_en then false
                  else r_rdy f |}.

End SyncFIFOBuffered.

(** ** [SetupFIFOInterface] (eptri.py) *)
Module SetupFIFOInterface.

Record Inputs := {
  tokenizer             : TokenDetectorInterface;
  rx_valid              : bool;
  rx_next               : bool;
  rx_payload            : Z;
  rx_ready_for_response : bool;
  active_address        : Z;
  (* CSR accesses of the controller *)
  data_r_stb            : bool;
  reset_w_stb           : bool;
  reset_w_data          : bool;
  address_w_stb         : bool;
  address_w_data        : Z
}.

Record State := {
  fifo        : SyncFIFOBuffered.t;
  epno_r_data : Z
}.

Record Outputs := {
  ack             : bool;
  nak             : bool;
  stall           : bool;
  fifo_w_en       : bool;
  fifo_w_data     : Z;
  fifo_r_en       : bool;
  data_r_data     : Z;
  have_r_data     : bool;
  address_r_data  : Z;
  address_changed : bool;
  new_address     : Z
}.

Definition reset_state : State :=
  {| fifo := SyncFIFOBuffered.reset_value; epno_r_data := 0 |}.

(** [new_setup = token.new_token & token.is_setup] *)
Definition new_setup (i : Inputs) : bool :=
  new_token (tokenizer i) && is_setup (tokenizer i).

Definition comb (s : State) (i : Inputs) : Outputs :=
  let token := tokenizer i in
  {| fifo_w_en       := is_setup token && rx_valid i && rx_next i;
     fifo_w_data     := trunc 8 (rx_payload i);
     fifo_r_en       := data_r_stb i;
     data_r_data     := SyncFIFOBuffered.r_data (fifo s);
     have_r_data     := SyncFIFOBuffered.r_rdy (fifo s);
     ack             := is_setup token && rx_ready_for_response i;
     (* this interface drives neither of the other two handshakes *)
     nak             := false;
     stall           := false;
     address_r_data  := trunc 8 (active_address i);
     address_changed := address_w_stb i;
     new_address     := if address_w_stb i
                        then trunc 7 (address_w_data i) else 0 |}.

(** The FIFO is [ResetInserter(new_setup)(SyncFIFOBuffered(width=8, depth=10))]:
    [new_setup] is its only reset.  The [reset] CSR is declared in
    [__init__] but [elaborate] never reads its strobe. *)
Definition tick (s : State) (i : Inputs) : State :=
  let o := comb s i in
  {| fifo        := SyncFIFOBuffered.tick 10 (fifo s) (new_setup i)
                      (fifo_w_en o) (fifo_w_data o) (fifo_r_en o);
     epno_r_data := if new_token (tokenizer i)
                    then trunc 4 (endpoint (tokenizer i))
                    else epno_r_data s |}.

Fixpoint run (s : State) (ins : list Inputs) : State :=
  match ins with
  | [] => s
  | i :: rest => run (tick s i) rest
  end.

End SetupFIFOInterface.

(** ** [InFIFOInterface] (eptri.py) *)
Module InFIFOInterface.

Inductive FSM := IDLE | PRIMED | SEND_ZLP | SEND_DATA.

Record Inputs := {
  tokenizer    : TokenDetectorInterface;
  tx_ready     : bool;
  (* CSR accesses of the controller *)
  data_w_stb   : bool;
  data_w_data  : Z;
  epno_w_stb   : bool;
  epno_w_data  : Z;
  reset_w_stb  : bool;
  stall_w_stb  : bool;
  stall_w_data : bool;
  pid_w_stb    : bool;
  pid_w_data   : bool
}.

Record State := {
  fsm              : FSM;
  fifo             : SyncFIFOBuffered.t;
  bytes_in_fifo    : Z;
  epno_r_data      : Z;
  endpoint_stalled : stall_array;
  pid_r_data       : bool;
  tx_first         : bool
}.

(** The combinational signals driven from inside the [m.FSM] block. *)
Record Response := {
  stall      : bool;
  nak        : bool;
  tx_valid   : bool;
  tx_last    : bool;
  tx_payload : Z;
  fifo_r_en  : bool
}.

(** The combinational signals driven outside the state machine. *)
Record Status := {
  tx_pid_toggle : bool;
  fifo_w_en     : bool;
  fifo_w_data   : Z;
  idle_r_data   : bool;
  have_r_data   : bool
}.

Definition reset_state : State :=
  {| fsm := IDLE;
     fifo := SyncFIFOBuffered.reset_value;
     bytes_in_fifo := 0;
     epno_r_data := 0;
     endpoint_stalled := no_stalls;
     pid_r_data := false;
     tx_first := false |}.

(** Logic shorthand of [elaborate]. *)
Definition new_in_token (i : Inputs) : bool :=
  is_in (tokenizer i) && ready_for_response (tokenizer i).

Definition endpoint_matches (s : State) (i : Inputs) : bool :=
  trunc 4 (endpoint (tokenizer i)) =? epno_r_data s.

Definition stalled (s : State) (i : Inputs) : bool :=
  array_get (endpoint_stalled s) (endpoint (tokenizer i)).

Definition last_packet (s : State) : bool := bytes_in_fifo s =? 1.

Definition silent : Response :=
  {| stall := false; nak := false; tx_valid := false; tx_last := false;
     tx_payload := 0; fifo_r_en := false |}.

Definition respond_stall : Response :=
  {| stall := true; nak := false; tx_valid := false; tx_last := false;
     tx_payload := 0; fifo_r_en := false |}.

Definition respond_nak : Response :=
  {| stall := false; nak := true; tx_valid := false; tx_last := false;
     tx_payload := 0; fifo_r_en := false |}.

Definition comb (s : State) (i : Inputs) : Response :=
  match fsm s with
  | IDLE =>
      if new_in_token i then
        if stalled s i then respond_stall else respond_nak
      else silent
  | PRIMED =>
      if new_in_token i then
        if stalled s i then respond_stall
        else if endpoint_matches s i then silent
        else respond_nak
      else silent
  | SEND_ZLP =>
      {| stall := false; nak := false; tx_valid := true; tx_last := true;
         tx_payload := 0; fifo_r_en := false |}
  | SEND_DATA =>
      {| stall := false; nak := false;
         tx_valid := true; tx_last := last_packet s;
         tx_payload := SyncFIFOBuffered.r_data (fifo s);
         fifo_r_en := tx_ready i |}
  end.

Definition status (s : State) (i : Inputs) : Status :=
  {| tx_pid_toggle := pid_r_data s;
     fifo_w_en := data_w_stb i;
     fifo_w_data := trunc 8 (data_w_data i);
     idle_r_data := match fsm s with IDLE => true | _ => false end;
     have_r_data := SyncFIFOBuffered.r_rdy (fifo s) |}.

(** The clocked part of the [m.FSM] block: the next state and the next
    value of the [tx.first] register. *)
Definition fsm_tick (s : State) (i : Inputs) : FSM * bool :=
  match fsm s with
  | IDLE =>
      (if epno_w_stb i && negb (stalled s i) then PRIMED else IDLE,
       tx_first s)
  | PRIMED =>
      if new_in_token i then
        if stalled s i then (PRIMED, tx_first s)
        else if endpoint_matches s i then
          if negb (SyncFIFOBuffered.r_rdy (fifo s))
          then (SEND_ZLP, tx_first s)
          else (SEND_DATA, true)
        else (PRIMED, tx_first s)
      else (PRIMED, tx_first s)
  | SEND_ZLP => (IDLE, tx_first s)
  | SEND_DATA =>
      (if last_packet s && tx_ready i then IDLE else SEND_DATA,
       if tx_ready i then false else tx_first s)
  end.

Definition next_endpoint_stalled (s : State) (i : Inputs) : stall_array :=
  let written := if stall_w_stb i
                 then array_set (endpoint_stalled s) (epno_r_data s)
                        (stall_w_data i)
                 else endpoint_stalled s in
  if is_setup (tokenizer i) && new_token (tokenizer i)
  then array_set written (endpoint (tokenizer i)) false
  else written.

Section WithPacketSize.

Variable max_packet_size : Z.

Definition next_bytes_in_fifo (s : State) (i : Inputs) : Z :=
  let increment := fifo_w_en (status s i)
                   && SyncFIFOBuffered.w_rdy max_packet_size (fifo s) in
  let decrement := fifo_r_en (comb s i)
                   && SyncFIFOBuffered.r_rdy (fifo s) in
  let w := bits_for max_packet_size in
  if reset_w_stb i then 0
  else if increment && negb decrement then trunc w (bytes_in_fifo s + 1)
  else if decrement && negb increment then trunc w (bytes_in_fifo s - 1)
  else bytes_in_fifo s.

Definition tick (s : State) (i : Inputs) : State :=
  {| fsm := fst (fsm_tick s i);
     fifo := SyncFIFOBuffered.tick max_packet_size (fifo s)
               (reset_w_stb i) (fifo_w_en (status s i))
               (fifo_w_data (status s i)) (fifo_r_en (comb s i));
     bytes_in_fifo := next_bytes_in_fifo s i;
     epno_r_data := if epno_w_stb i then trunc 4 (epno_w_data i)
                    else epno_r_data s;
     endpoint_stalled := next_endpoint_stalled s i;
     pid_r_data := if pid_w_stb i then pid_w_data i else pid_r_data s;
     tx_first := snd (fsm_tick s i) |}.

Fixpoint run (s : State) (ins : list Inputs) : State :=
  match ins with
  | [] => s
  | i :: rest => run (tick s i) rest
  end.

(** The states the circuit can be in after reset. *)
Inductive reachable : State -> Prop :=
| reach_reset : reachable reset_state
| reach_tick s i : reachable s -> reachable (tick s i).

End WithPacketSize.

End InFIFOInterface.

(** ** [OutFIFOInterface] (eptri.py) *)
Module OutFIFOInterface.

Record Inputs := {
  tokenizer             : TokenDetectorInterface;
  rx_valid              : bool;
  rx_next               : bool;
  rx_payload            : Z;
  rx_ready_for_response : bool;
  (* CSR accesses of the controller *)
  data_r_stb            : bool;
  reset_w_stb           : bool;
  epno_w_stb            : bool;
  epno_w_data           : Z;
  enable_w_stb          : bool;
  enable_w_data         : bool;
  stall_w_stb           : bool;
  stall_w_data          : bool
}.

Record State := {
  fifo             : SyncFIFOBuffered.t;
  epno_r_data      : Z;
  enable_r_data    : bool;
  endpoint_stalled : stall_array
}.

Record Outputs := {
  ack         : bool;
  stall       : bool;
  nak         : bool;
  fifo_w_en   : bool;
  fifo_w_data : Z;
  fifo_r_en   : bool;
  data_r_data : Z;
  have_r_data : bool
}.

Definition reset_state : State :=
  {| fifo := SyncFIFOBuffered.reset_value;
     epno_r_data := 0;
     enable_r_data := false;
     endpoint_stalled := no_stalls |}.

(** Logic shorthand of [elaborate]. *)
Definition stalled (s : State) (i : Inputs) : bool :=
  is_out (tokenizer i)
  && array_get (endpoint_stalled s) (endpoint (tokenizer i)).

Definition endpoint_matches (s : State) (i : Inputs) : bool :=
  trunc 4 (endpoint (tokenizer i)) =? epno_r_data s.

Definition allow_receive (s : State) (i : Inputs) : bool :=
  endpoint_matches s i && enable_r_data s && is_out (tokenizer i)
  && negb (stalled s i).

Definition nak_receives (s : State) (i : Inputs) : bool :=
  is_out (tokenizer i) && negb (allow_receive s i) && negb (stalled s i).

Definition comb (s : State) (i : Inputs) : Outputs :=
  {| fifo_w_en   := allow_receive s i && rx_valid i && rx_next i;
     fifo_w_data := trunc 8 (rx_payload i);
     fifo_r_en   := data_r_stb i;
     data_r_data := SyncFIFOBuffered.r_data (fifo s);
     have_r_data := SyncFIFOBuffered.r_rdy (fifo s);
     ack         := allow_receive s i && rx_ready_for_response i;
     stall       := stalled s i && rx_ready_for_response i;
     nak         := nak_receives s i && rx_ready_for_response i |}.

(** [enable]: the CPU write comes first in [elaborate], the clearing on
    [handshakes_out.ack] second, so the clearing wins when both are
    active. *)
Definition next_enable (s : State) (i : Inputs) : bool :=
  let written := if enable_w_stb i then enable_w_data i
                 else enable_r_data s in
  if ack (comb s i) then false else written.

Definition next_endpoint_stalled (s : State) (i : Inputs) : stall_array :=
  let written := if stall_w_stb i
                 then array_set (endpoint_stalled s) (epno_r_data s)
                        (stall_w_data i)
                 else endpoint_stalled s in
  if is_setup (tokenizer i) && new_token (tokenizer i)
  then array_set written (endpoint (tokenizer i)) false
  else written.

Definition tick (s : State) (i : Inputs) : State :=
  let o := comb s i in
  {| fifo := SyncFIFOBuffered.tick 10 (fifo s) (reset_w_stb i)
               (fifo_w_en o) (fifo_w_data o) (fifo_r_en o);
     epno_r_data := if epno_w_stb i then trunc 4 (epno_w_data i)
                    else epno_r_data s;
     enable_r_data := next_enable s i;
     endpoint_stalled := next_endpoint_stalled s i |}.

Fixpoint run (s : State) (ins : list Inputs) : State :=
  match ins with
  | [] => s
  | i :: rest => run (tick s i) rest
  end.

(** The controller re-arms in a tick when it writes '1' to [enable]. *)
Definition rearms (i : Inputs) : bool := enable_w_stb i && enable_w_data i.

End OutFIFOInterface.

(** ** [TransactionalizedFIFO]

    Modelled from the spec: [TransactionalizedFIFO] of
    [luna/gateware/memory.py], which [USBStreamOutEndpoint] instantiates, is
    not among the sources.  Section 4.1 of the specification gives its
    operations: [write] appends if not full; [commit] makes all bytes written
    since the last commit or discard visible to readers, in order; [discard]
    removes them and leaves the reader-visible contents unchanged; [read] pops
    the oldest visible byte and is a no-op if empty; [space_available] and
    [empty].  [visible] is what the reader can see and [in_flight] the
    provisional write run.  One clock tick performs the operations whose
    enables are high, in the order read, write, commit, discard. *)
Module TransactionalizedFIFO.

Record t := {
  visible   : list Z;
  in_flight : list Z
}.

Definition reset_value : t := {| visible := []; in_flight := [] |}.

Definition space_available (depth : Z) (f : t) : Z :=
  depth - Z.of_nat (length (visible f) + length (in_flight f)).

Definition full (depth : Z) (f : t) : bool := space_available depth f <=? 0.

Definition empty (f : t) : bool :=
  match visible f with [] => true | _ :: _ => false end.

Definition read_data (f : t) : Z := hd 0 (visible f).

(** Everything the FIFO holds, oldest first. *)
Definition stored (f : t) : list Z := visible f ++ in_flight f.

Definition write (depth : Z) (x : Z) (f : t) : t :=
  if full depth f then f
  else {| visible := visible f; in_flight := in_flight f ++ [x] |}.

Definition commit (f : t) : t :=
  {| visible := visible f ++ in_flight f; in_flight := [] |}.

Definition discard (f : t) : t :=
  {| visible := visible f; in_flight := [] |}.

Definition read (f : t) : t :=
  {| visible := tail (visible f); in_flight := in_flight f |}.

Definition tick (depth : Z) (f : t) (write_en : bool) (write_data : Z)
    (write_commit write_discard read_en : bool) : t :=
  let f1 := if read_en then read f else f in
  let f2 := if write_en then write depth write_data f1 else f1 in
  let f3 := if write_commit then commit f2 else f2 in
  if write_discard then discard f3 else f3.

End TransactionalizedFIFO.

(** ** [USBStreamOutEndpoint] (stream.py) *)
Module USBStreamOutEndpoint.

(** The constructor arguments; [buffer_size] is optional. *)
Record Config := {
  endpoint_number : Z;
  max_packet_size : Z;
  buffer_size     : Z
}.

Definition init (endpoint_number max_packet_size : Z)
    (buffer_size : option Z) : Config :=
  {| endpoint_number := endpoint_number;
     max_packet_size := max_packet_size;
     buffer_size := match buffer_size with
                    | Some n => n
                    | None => max_packet_size * 2
                    end |}.

(** [rx_payload] to [invalid_out] are the outputs of the
    [USBOutStreamBoundaryDetector] submodule (the processed stream, its
    [first] and [last] markers and the delayed completion strobes); that
    submodule is outside the sources and its outputs are taken as they
    come. *)
Record Inputs := {
  tokenizer             : TokenDetectorInterface;
  rx_pid_toggle         : bool;
  rx_ready_for_response : bool;
  rx_payload            : Z;
  rx_valid              : bool;
  rx_next               : bool;
  rx_first              : bool;
  rx_last               : bool;
  complete_out          : bool;
  invalid_out           : bool;
  stream_ready          : bool
}.

Record State := {
  is_first_byte        : bool;
  expected_data_toggle : bool;
  fifo                 : TransactionalizedFIFO.t
}.

Record Outputs := {
  ack                : bool;
  nak                : bool;
  stall              : bool;
  fifo_write_data    : Z;
  fifo_write_en      : bool;
  fifo_write_commit  : bool;
  fifo_write_discard : bool;
  fifo_read_en       : bool;
  stream_valid       : bool;
  stream_payload     : Z;
  stream_last        : bool;
  stream_first       : bool
}.

Definition reset_state : State :=
  {| is_first_byte := true;
     expected_data_toggle := false;
     fifo := TransactionalizedFIFO.reset_value |}.

Section WithConfig.

Variable cfg : Config.

(** The conditionals of [elaborate]. *)
Definition endpoint_number_matches (i : Inputs) : bool :=
  trunc 4 (endpoint (tokenizer i)) =? endpoint_number cfg.

Definition targeting_endpoint (i : Inputs) : bool :=
  endpoint_number_matches i && is_out (tokenizer i).

Definition expected_pid_match (s : State) (i : Inputs) : bool :=
  Bool.eqb (rx_pid_toggle i) (expected_data_toggle s).

Definition sufficient_space (s : State) : bool :=
  max_packet_size cfg
  <=? TransactionalizedFIFO.space_available (buffer_size cfg) (fifo s).

Definition ping_response_requested (i : Inputs) : bool :=
  endpoint_number_matches i && is_ping (tokenizer i)
  && ready_for_response (tokenizer i).

Definition data_response_requested (i : Inputs) : bool :=
  targeting_endpoint i && is_out (tokenizer i)
  && rx_ready_for_response i.

Definition okay_to_receive (s : State) (i : Inputs) : bool :=
  targeting_endpoint i && sufficient_space s && expected_pid_match s i.

Definition should_skip (s : State) (i : Inputs) : bool :=
  targeting_endpoint i && negb (expected_pid_match s i).

(** [fifo.write_data]: payload in bits 0 to 7, [last] in bit 8, [first]
    in bit 9. *)
Definition pack (payload : Z) (last first : bool) : Z :=
  Z.lor (trunc 8 payload)
        (Z.lor (Z.shiftl (Z.b2z last) 8) (Z.shiftl (Z.b2z first) 9)).

Definition comb (s : State) (i : Inputs) : Outputs :=
  let read_data := TransactionalizedFIFO.read_data (fifo s) in
  {| fifo_write_data := pack (rx_payload i) (rx_last i) (rx_first i);
     fifo_write_en := okay_to_receive s i && rx_next i && rx_valid i;
     fifo_write_commit := targeting_endpoint i && complete_out i;
     fifo_write_discard := targeting_endpoint i && invalid_out i;
     ack := (data_response_requested i && okay_to_receive s i)
            || (ping_response_requested i && okay_to_receive s i)
            || (data_response_requested i && should_skip s i);
     nak := (data_response_requested i && negb (okay_to_receive s i)
             && negb (should_skip s i))
            || (ping_response_requested i && negb (okay_to_receive s i));
     (* never driven by this endpoint *)
     stall := false;
     stream_valid := negb (TransactionalizedFIFO.empty (fifo s));
     stream_payload := trunc 8 read_data;
     stream_last := Z.testbit read_data 8;
     stream_first := Z.testbit read_data 9;
     fifo_read_en := stream_ready i |}.

Definition tick (s : State) (i : Inputs) : State :=
  let o := comb s i in
  {| is_first_byte := if stream_valid o && stream_ready i
                      then stream_last o else is_first_byte s;
     expected_data_toggle :=
       if data_response_requested i && okay_to_receive s i
       then negb (expected_data_toggle s)
       else expected_data_toggle s;
     fifo := TransactionalizedFIFO.tick (buffer_size cfg) (fifo s)
               (fifo_write_en o) (fifo_write_data o)
               (fifo_write_commit o) (fifo_write_discard o)
               (fifo_read_en o) |}.

Fixpoint run (s : State) (ins : list Inputs) : State :=
  match ins with
  | [] => s
  | i :: rest => run (tick s i) rest
  end.

(** The bytes a consumer takes from the output stream over a run of
    ticks: one whenever [stream.valid] and [stream.ready] are both
    high. *)
Fixpoint consumed (s : State) (ins : list Inputs) : list Z :=
  match ins with
  | [] => []
  | i :: rest =>
      let o := comb s i in
      (if stream_valid o && stream_ready i then [stream_payload o] else [])
      ++ consumed (tick s i) rest
  end.

(** The inputs of a run of ticks, each with the outputs it produced. *)
Fixpoint trace (s : State) (ins : list Inputs) : list (Inputs * Outputs) :=
  match ins with
  | [] => []
  | i :: rest => (i, comb s i) :: trace (tick s i) rest
  end.

(** An OUT data tick for this endpoint whose data toggle is not [expected]. *)
Definition mismatched_out (expected : bool) (i : Inputs) : Prop :=
  endpoint_number_matches i = true
  /\ is_out (tokenizer i) = true
  /\ is_ping (tokenizer i) = false
  /\ rx_pid_toggle i <> expected.

End WithConfig.

End USBStreamOutEndpoint.

(** ** Sample signals and states used by the examples below *)

Definition quiet_token : TokenDetectorInterface :=
  {| endpoint := 0; new_token := false; ready_for_response := false;
     is_in := false; is_out := false; is_setup := false; is_ping := false |}.

Definition setup_token (ep : Z) (fresh : bool) : TokenDetectorInterface :=
  {| endpoint := ep; new_token := fresh; ready_for_response := false;
     is_in := false; is_out := false; is_setup := true; is_ping := false |}.

Definition in_token (ep : Z) : TokenDetectorInterface :=
  {| endpoint := ep; new_token := false; ready_for_response := true;
     is_in := true; is_out := false; is_setup := false; is_ping := false |}.

Definition out_token (ep : Z) : TokenDetectorInterface :=
  {| endpoint := ep; new_token := false; ready_for_response := false;
     is_in := false; is_out := true; is_setup := false; is_ping := false |}.

Definition ping_token (ep : Z) : TokenDetectorInterface :=
  {| endpoint := ep; new_token := false; ready_for_response := true;
     is_in := false; is_out := false; is_setup := false; is_ping := true |}.

Module SetupSamples.
Import SetupFIFOInterface.

(** A tick in which nothing happens on the bus or on the CSRs. *)
Definition idle : Inputs :=
  {| tokenizer := quiet_token; rx_valid := false; rx_next := false;
     rx_payload := 0; rx_ready_for_response := false; active_address := 0;
     data_r_stb := false; reset_w_stb := false; reset_w_data := false;
     address_w_stb := false; address_w_data := 0 |}.

(** The SETUP token for endpoint [ep] is decoded. *)
Definition token_arrives (ep : Z) : Inputs :=
  {| tokenizer := setup_token ep true; rx_valid := false; rx_next := false;
     rx_payload := 0; rx_ready_for_response := false; active_address := 0;
     data_r_stb := false; reset_w_stb := false; reset_w_data := false;
     address_w_stb := false; address_w_data := 0 |}.

(** One byte of the SETUP data phase. *)
Definition data_byte (ep x : Z) : Inputs :=
  {| tokenizer := setup_token ep false; rx_valid := true; rx_next := true;
     rx_payload := x; rx_ready_for_response := false; active_address := 0;
     data_r_stb := false; reset_w_stb := false; reset_w_data := false;
     address_w_stb := false; address_w_data := 0 |}.

(** The data phase is complete and a handshake is due. *)
Definition response_due (ep : Z) : Inputs :=
  {| tokenizer := setup_token ep false; rx_valid := false; rx_next := false;
     rx_payload := 0; rx_ready_for_response := true; active_address := 0;
     data_r_stb := false; reset_w_stb := false; reset_w_data := false;
     address_w_stb := false; address_w_data := 0 |}.

(** The controller writes '1' to the [reset] CSR; the bus is idle. *)
Definition reset_write : Inputs :=
  {| tokenizer := quiet_token; rx_valid := false; rx_next := false;
     rx_payload := 0; rx_ready_for_response := false; active_address := 0;
     data_r_stb := false; reset_w_stb := true; reset_w_data := true;
     address_w_stb := false; address_w_data := 0 |}.

(** GET_DESCRIPTOR(device), a complete SETUP transaction on endpoint 0. *)
Definition get_descriptor : list Inputs :=
  token_arrives 0
  :: map (data_byte 0) [0x80; 0x06; 0x00; 0x01; 0x00; 0x00; 0x40; 0x00]
  ++ [response_due 0; idle].

Definition captured : State := run reset_state get_descriptor.

(** [i] with the accesses to the [reset] CSR replaced. *)
Definition with_reset_access (i : Inputs) (stb data : bool) : Inputs :=
  {| tokenizer := tokenizer i; rx_valid := rx_valid i; rx_next := rx_next i;
     rx_payload := rx_payload i;
     rx_ready_for_response := rx_ready_for_response i;
     active_address := active_address i;
     data_r_stb := data_r_stb i; reset_w_stb := stb; reset_w_data := data;
     address_w_stb := address_w_stb i;
     address_w_data := address_w_data i |}.

End SetupSamples.

Module InSamples.
Import InFIFOInterface.

(** A tick with token-detector view [tok] and no CSR access. *)
Definition bus (tok : TokenDetectorInterface) (ready : bool) : Inputs :=
  {| tokenizer := tok; tx_ready := ready;
     data_w_stb := false; data_w_data := 0;
     epno_w_stb := false; epno_w_data := 0; reset_w_stb := false;
     stall_w_stb := false; stall_w_data := false;
     pid_w_stb := false; pid_w_data := false |}.

Definition idle : Inputs := bus quiet_token false.

(** The controller queues one byte through the [data] CSR. *)
Definition write_byte (x : Z) : Inputs :=
  {| tokenizer := quiet_token; tx_ready := false;
     data_w_stb := true; data_w_data := x;
     epno_w_stb := false; epno_w_data := 0; reset_w_stb := false;
     stall_w_stb := false; stall_w_data := false;
     pid_w_stb := false; pid_w_data := false |}.

(** The controller writes [ep] to the [epno] CSR while the token detector
    shows [tok]. *)
Definition prime (ep : Z) (tok : TokenDetectorInterface) : Inputs :=
  {| tokenizer := tok; tx_ready := false;
     data_w_stb := false; data_w_data := 0;
     epno_w_stb := true; epno_w_data := ep; reset_w_stb := false;
     stall_w_stb := false; stall_w_data := false;
     pid_w_stb := false; pid_w_data := false |}.

(** The controller writes [v] to the [stall] CSR. *)
Definition set_stall (v : bool) : Inputs :=
  {| tokenizer := quiet_token; tx_ready := false;
     data_w_stb := false; data_w_data := 0;
     epno_w_stb := false; epno_w_data := 0; reset_w_stb := false;
     stall_w_stb := true; stall_w_data := v;
     pid_w_stb := false; pid_w_data := false |}.

(** Endpoint 2 primed with one byte queued, then stalled. *)
Definition primed_and_stalled : State :=
  run 64 reset_state
    [write_byte 0xAA; prime 2 quiet_token; idle; idle; set_stall true].


(** Endpoint 0 stalled straight after reset; the state machine is idle. *)
Definition ep0_stalled : State := run 64 reset_state [set_stall true].

End InSamples.

Module OutSamples.
Import OutFIFOInterface.

Definition bus (tok : TokenDetectorInterface) (valid next : bool)
    (payload : Z) (response : bool) : Inputs :=
  {| tokenizer := tok; rx_valid := valid; rx_next := next;
     rx_payload := payload; rx_ready_for_response := response;
     data_r_stb := false; reset_w_stb := false;
     epno_w_stb := false; epno_w_data := 0;
     enable_w_stb := false; enable_w_data := false;
     stall_w_stb := false; stall_w_data := false |}.

Definition idle : Inputs := bus quiet_token false false 0 false.

(** The controller selects endpoint [ep]. *)
Definition select (ep : Z) : Inputs :=
  {| tokenizer := quiet_token; rx_valid := false; rx_next := false;
     rx_payload := 0; rx_ready_for_response := false;
     data_r_stb := false; reset_w_stb := false;
     epno_w_stb := true; epno_w_data := ep;
     enable_w_stb := false; enable_w_data := false;
     stall_w_stb := false; stall_w_data := false |}.

(** The controller writes [v] to the [enable] CSR. *)
Definition arm (v : bool) : Inputs :=
  {| tokenizer := quiet_token; rx_valid := false; rx_next := false;
     rx_payload := 0; rx_ready_for_response := false;
     data_r_stb := false; reset_w_stb := false;
     epno_w_stb := false; epno_w_data := 0;
     enable_w_stb := true; enable_w_data := v;
     stall_w_stb := false; stall_w_data := false |}.

(** One byte of an OUT data phase on endpoint [ep]. *)
Definition data_byte (ep x : Z) : Inputs := bus (out_token ep) true true x false.

(** The OUT data phase on endpoint [ep] is complete, a handshake is due. *)
Definition response_due (ep : Z) : Inputs :=
  bus (out_token ep) false false 0 true.

(** The same tick, with the controller writing '1' to [enable] as well. *)
Definition response_due_and_arm (ep : Z) : Inputs :=
  {| tokenizer := out_token ep; rx_valid := false; rx_next := false;
     rx_payload := 0; rx_ready_for_response := true;
     data_r_stb := false; reset_w_stb := false;
     epno_w_stb := false; epno_w_data := 0;
     enable_w_stb := true; enable_w_data := true;
     stall_w_stb := false; stall_w_data := false |}.

(** Endpoint 1 selected and armed, two bytes of an OUT packet received. *)
Definition receiving : State :=
  run reset_state [select 1; arm true; data_byte 1 0x11; data_byte 1 0x22].

End OutSamples.

Module StreamSamples.
Import USBStreamOutEndpoint.

(** Endpoint 1, eight-byte packets, the default buffer of sixteen bytes. *)
Definition cfg : Config := init 1 8 None.

Definition bus (tok : TokenDetectorInterface) (toggle : bool) : Inputs :=
  {| tokenizer := tok; rx_pid_toggle := toggle;
     rx_ready_for_response := false;
     rx_payload := 0; rx_valid := false; rx_next := false;
     rx_first := false; rx_last := false;
     complete_out := false; invalid_out := false; stream_ready := false |}.

(** One byte of an OUT data packet with data toggle [toggle]. *)
Definition data_byte (ep : Z) (toggle : bool) (x : Z) : Inputs :=
  {| tokenizer := out_token ep; rx_pid_toggle := toggle;
     rx_ready_for_response := false;
     rx_payload := x; rx_valid := true; rx_next := true;
     rx_first := false; rx_last := false;
     complete_out := false; invalid_out := false; stream_ready := false |}.

(** The packet ended with a valid CRC. *)
Definition crc_valid (ep : Z) (toggle : bool) : Inputs :=
  {| tokenizer := out_token ep; rx_pid_toggle := toggle;
     rx_ready_for_response := false;
     rx_payload := 0; rx_valid := false; rx_next := false;
     rx_first := false; rx_last := false;
     complete_out := true; invalid_out := false; stream_ready := false |}.

(** The packet ended with an invalid CRC. *)
Definition crc_invalid (ep : Z) (toggle : bool) : Inputs :=
  {| tokenizer := out_token ep; rx_pid_toggle := toggle;
     rx_ready_for_response := false;
     rx_payload := 0; rx_valid := false; rx_next := false;
     rx_first := false; rx_last := false;
     complete_out := false; invalid_out := true; stream_ready := false |}.

(** A handshake is due for the OUT data packet. *)
Definition response_due (ep : Z) (toggle : bool) : Inputs :=
  {| tokenizer := out_token ep; rx_pid_toggle := toggle;
     rx_ready_for_response := true;
     rx_payload := 0; rx_valid := false; rx_next := false;
     rx_first := false; rx_last := false;
     complete_out := false; invalid_out := false; stream_ready := false |}.

(** The consumer takes one byte from the output stream. *)
Definition consume : Inputs :=
  {| tokenizer := quiet_token; rx_pid_toggle := false;
     rx_ready_for_response := false;
     rx_payload := 0; rx_valid := false; rx_next := false;
     rx_first := false; rx_last := false;
     complete_out := false; invalid_out := false; stream_ready := true |}.

(** A whole OUT transaction: the data bytes, a valid CRC, the handshake. *)
Definition packet (ep : Z) (toggle : bool) (bytes : list Z) : list Inputs :=
  map (data_byte ep toggle) bytes
  ++ [crc_valid ep toggle; response_due ep toggle].

(** A full DATA0 packet was accepted; a one-byte DATA1 packet followed,
    whose byte was buffered and committed but which was NAK'd, less than a
    packet of space being left when its response was due.  Nine of the
    sixteen bytes are taken and DATA1 is still expected. *)
Definition nearly_full : State :=
  run cfg reset_state
    (packet 1 false [1; 2; 3; 4; 5; 6; 7; 8] ++ packet 1 true [9]).

(** After one three-byte DATA0 packet: DATA1 is expected next. *)
Definition one_received : State :=
  run cfg reset_state (packet 1 false [0x0A; 0x0B; 0x0C]).

End StreamSamples.

(** A [SyncFIFOBuffered] presents what it holds when a non-empty queue is
    readable, which is the case one tick after the first write at the
    latest. *)
Definition presented (f : SyncFIFOBuffered.t) : Prop :=
  SyncFIFOBuffered.contents f <> [] -> SyncFIFOBuffered.r_rdy f = true.

(** ** Observations over runs of ticks *)

Module SetupObservations.
Import SetupFIFOInterface.

(** What the controller reads from the [data] CSR over a run of ticks: the
    value of [data.r_data] in every tick in which it strobes the register
    while data is available. *)
Fixpoint read_out (s : State) (ins : list Inputs) : list Z :=
  match ins with
  | [] => []
  | i :: rest =>
      (if data_r_stb i && have_r_data (comb s i)
       then [data_r_data (comb s i)] else [])
      ++ read_out (tick s i) rest
  end.

(** A tick of a SETUP data phase that delivers byte [x]; the controller
    does not read. *)
Definition delivers (x : Z) (i : Inputs) : Prop :=
  is_setup (tokenizer i) = true /\ new_token (tokenizer i) = false
  /\ rx_valid i = true /\ rx_next i = true /\ rx_payload i = x
  /\ data_r_stb i = false.

(** A tick in which nothing is written to the FIFO and it is not reset. *)
Definition no_capture (i : Inputs) : Prop :=
  new_setup i = false /\ fifo_w_en (comb reset_state i) = false.

(** The endpoint of the last tick of [ins] that carries a new token. *)
Fixpoint last_token_endpoint (ins : list Inputs) : option Z :=
  match ins with
  | [] => None
  | i :: rest =>
      match last_token_endpoint rest with
      | Some e => Some e
      | None => if new_token (tokenizer i)
                then Some (endpoint (tokenizer i)) else None
      end
  end.

End SetupObservations.

Module InObservations.
Import InFIFOInterface.

(** One beat of the transmit stream: payload, [first] and [last]. *)
Definition beat : Type := Z * bool * bool.

(** What the link layer takes from the transmit stream over a run of ticks:
    one beat in every tick in which [tx.valid] and [tx.ready] are high. *)
Fixpoint sent (max_packet_size : Z) (s : State) (ins : list Inputs)
    : list beat :=
  match ins with
  | [] => []
  | i :: rest =>
      (if tx_valid (comb s i) && tx_ready i
       then [(tx_payload (comb s i), tx_first s, tx_last (comb s i))]
       else [])
      ++ sent max_packet_size (tick max_packet_size s i) rest
  end.

(** The beats of a data packet with payload [bytes]: [first] as given on
    the first byte and low afterwards, [last] on the final byte only. *)
Fixpoint packet_beats (first : bool) (bytes : list Z) : list beat :=
  match bytes with
  | [] => []
  | [x] => [(x, first, true)]
  | x :: rest => (x, first, false) :: packet_beats false rest
  end.

(** A tick in which the link layer takes a byte and the controller leaves
    the FIFO alone. *)
Definition takes (i : Inputs) : Prop :=
  tx_ready i = true /\ data_w_stb i = false /\ reset_w_stb i = false.

(** A tick that does not address endpoint [ep] with an IN token and in
    which the controller touches neither the FIFO nor [epno]. *)
Definition polls_elsewhere (ep : Z) (i : Inputs) : Prop :=
  (new_in_token i = false \/ trunc 4 (endpoint (tokenizer i)) <> ep)
  /\ epno_w_stb i = false /\ data_w_stb i = false
  /\ reset_w_stb i = false.

(** A tick that leaves the stall flag of endpoint [e] alone: no write to
    the [stall] CSR and no new SETUP token for [e]. *)
Definition keeps_stall (e : Z) (i : Inputs) : Prop :=
  stall_w_stb i = false
  /\ (is_setup (tokenizer i) && new_token (tokenizer i) = false
      \/ trunc 4 (endpoint (tokenizer i)) <> trunc 4 e).

End InObservations.

Module OutObservations.
Import OutFIFOInterface.

(** What the controller reads from the [data] CSR over a run of ticks. *)
Fixpoint read_out (s : State) (ins : list Inputs) : list Z :=
  match ins with
  | [] => []
  | i :: rest =>
      (if data_r_stb i && have_r_data (comb s i)
       then [data_r_data (comb s i)] else [])
      ++ read_out (tick s i) rest
  end.

(** The controller touches no CSR in this tick. *)
Definition no_csr_access (i : Inputs) : Prop :=
  data_r_stb i = false /\ reset_w_stb i = false /\ epno_w_stb i = false
  /\ enable_w_stb i = false /\ stall_w_stb i = false.

(** The token detector shows an OUT token for endpoint [e], not a new
    SETUP token. *)
Definition out_token_for (e : Z) (i : Inputs) : Prop :=
  is_out (tokenizer i) = true
  /\ trunc 4 (endpoint (tokenizer i)) = trunc 4 e
  /\ is_setup (tokenizer i) && new_token (tokenizer i) = false.

(** A tick of an OUT data phase on endpoint [e] that delivers byte [x]. *)
Definition delivers (e x : Z) (i : Inputs) : Prop :=
  out_token_for e i
  /\ rx_valid i = true /\ rx_next i = true /\ rx_payload i = x
  /\ rx_ready_for_response i = false
  /\ no_csr_access i.

(** The tick in which the handshake for the OUT packet on [e] is due. *)
Definition response_due (e : Z) (i : Inputs) : Prop :=
  out_token_for e i
  /\ rx_valid i = false
  /\ rx_ready_for_response i = true
  /\ no_csr_access i.

(** The controller reads the [data] CSR while the receiver is silent. *)
Definition reads (i : Inputs) : Prop :=
  data_r_stb i = true /\ reset_w_stb i = false /\ rx_valid i = false.

(** A tick that leaves the stall flag of endpoint [e] alone. *)
Definition keeps_stall (e : Z) (i : Inputs) : Prop :=
  stall_w_stb i = false
  /\ (is_setup (tokenizer i) && new_token (tokenizer i) = false
      \/ trunc 4 (endpoint (tokenizer i)) <> trunc 4 e).

End OutObservations.

(** ** [top_level_cli] (luna/__init__.py)

    The command-line driver, as the sequence of calls it makes on the
    outside world and the way it ends.  The parsed arguments (what
    [parser.parse_args()] returns when it returns), the presence of
    [cli_soc], whether [fragment] is callable and the answers of the outside
    world are inputs.  A call that can raise is recorded and then fails or
    not as the world decides ([fails]); attribute assignments and log lines
    are recorded and cannot fail.  The first step reads the name of the
    fragment for the parser's description: [fragment.__name__] of a callable
    raises when the callable has no such attribute, the class name of an
    instance is always there. *)
Module TopLevelCli.

(** [parser.parse_args()]; the two [generate_*] options exist only with
    [cli_soc]. *)
Record Args := {
  output             : option string;
  erase              : bool;
  upload             : bool;
  flash              : bool;
  dry_run            : bool;
  keep_files         : bool;
  generate_c_header  : bool;
  generate_ld_script : bool
}.

Inductive Event :=
| FragmentName                        (* fragment.__name__ *)
| SilenceUnused (silence : bool)      (* MustUse._MustUse__silence = ... *)
| ConfigureLogging (color : bool)     (* logging.basicConfig(...) *)
| CallFragment                        (* fragment( *pos_args, **kwargs) *)
| GenerateCHeader                     (* cli_soc.generate_c_header() *)
| GenerateLdScript                    (* cli_soc.generate_ld_script() *)
| MakeTempDir                         (* tempfile.mkdtemp() *)
| GetPlatform                         (* get_appropriate_platform() *)
| LogInfo (message : string)          (* logging.info(...) *)
| ToolchainErase                      (* platform.toolchain_erase() *)
| Build (do_program : bool) (build_dir : string)  (* platform.build(...) *)
| ToolchainFlash                      (* platform.toolchain_flash(products) *)
| WriteFile (filename : string)       (* open(args.output, "wb"); f.write *)
| RemoveTree (dir : string).          (* shutil.rmtree(build_dir) *)

Inductive Outcome :=
| Returns (fragment : bool)   (* [return fragment] or [return None] *)
| Exits (code : Z)            (* [sys.exit(code)] *)
| Raises.                     (* an exception leaves the function *)

Record World := {
  isatty        : bool;            (* sys.stdout.isatty() *)
  tempdir       : string;          (* the directory mkdtemp creates *)
  platform_name : string;          (* platform.name *)
  fails         : Event -> bool    (* the calls that raise *)
}.

Definition Run : Type := list Event * Outcome.

Section WithWorld.

Variable w : World.

(** Record [e], which cannot fail, and go on. *)
Definition note (e : Event) (k : Run) : Run := (e :: fst k, snd k).

(** Make call [e]: if it raises, the function is left at once. *)
Definition call (e : Event) (k : Run) : Run :=
  if fails w e then ([e], Raises) else (e :: fst k, snd k).

(** [try: body finally: cleanup]: the clean-up runs however the body
    ended, and an exception of its own replaces the body's outcome. *)
Definition try_finally (body : Run) (cleanup : option Event) : Run :=
  match cleanup with
  | None => body
  | Some e => (fst body ++ [e], if fails w e then Raises else snd body)
  end.

(** Python's truth value of [args.output]: [None] and the empty string
    are false. *)
Definition truthy (o : option string) : bool :=
  match o with
  | None => false
  | Some EmptyString => false
  | Some _ => true
  end.

(** [args.upload] after the default has been applied and [--flash] has
    overridden it. *)
Definition resolved_upload (a : Args) : bool :=
  let defaulted :=
    if (match output a with None => true | Some _ => false end)
       && negb (flash a) && negb (erase a) && negb (dry_run a)
    then true else upload a in
  if flash a then false else defaulted.

(** [args.erase] after [--flash] has overridden it. *)
Definition resolved_erase (a : Args) : bool :=
  if flash a then false else erase a.

(** The body of the [try] block. *)
Definition build_steps (a : Args) (build_dir : string) : Run :=
  let up := resolved_upload a in
  let join_text := if up then "and uploading gateware to attached"%string
                   else "for"%string in
  call GetPlatform
   ((if resolved_erase a
     then fun k => note (LogInfo "Erasing flash...")
                    (call ToolchainErase
                      (note (LogInfo "Erase complete.") k))
     else fun k => k)
    (note (LogInfo (String.append "Building "
                     (String.append join_text
                       (String.append " "
                         (String.append (platform_name w) "...")))))
     (note (SilenceUnused false)
      (call (Build up build_dir)
       (note (LogInfo (String.append (if up then "Upload" else "Build")
                         " complete."))
        ((if flash a
          then fun k => note (LogInfo "Programming flash...")
                         (call ToolchainFlash
                           (note (LogInfo "Programming complete.") k))
          else fun k => k)
         ((if truthy (output a)
           then call (WriteFile (match output a with
                                 | Some name => name
                                 | None => EmptyString
                                 end))
           else fun k => k)
          ([], Returns (up || flash a))))))))).

Definition top_level_cli (cli_soc fragment_callable : bool) (a : Args)
    : Run :=
  (if fragment_callable then call FragmentName else fun k => k)
   (note (SilenceUnused true)
    (note (ConfigureLogging (isatty w))
     ((if fragment_callable then call CallFragment else fun k => k)
      (if cli_soc && generate_c_header a
       then call GenerateCHeader ([], Exits 0)
       else if cli_soc && generate_ld_script a
       then call GenerateLdScript ([], Exits 0)
       else if keep_files a
       then try_finally (build_steps a "build") None
       else call MakeTempDir
              (try_finally (build_steps a (tempdir w))
                           (Some (RemoveTree (tempdir w)))))))).

End WithWorld.

(** The events of a run that are builds. *)
Definition is_build (e : Event) : bool :=
  match e with Build _ _ => true | _ => false end.

Definition is_remove (e : Event) : bool :=
  match e with RemoveTree _ => true | _ => false end.

(** A world in which no call raises. *)
Definition calm (isatty : bool) (tempdir platform_name : string) : World :=
  {| isatty := isatty; tempdir := tempdir; platform_name := platform_name;
     fails := fun _ => false |}.

End TopLevelCli.

(** ** More sample signals *)
Module MoreSamples.

(** The controller reads the SETUP [data] CSR; the bus is idle. *)
Definition setup_read : SetupFIFOInterface.Inputs :=
  {| SetupFIFOInterface.tokenizer := quiet_token;
     SetupFIFOInterface.rx_valid := false;
     SetupFIFOInterface.rx_next := false;
     SetupFIFOInterface.rx_payload := 0;
     SetupFIFOInterface.rx_ready_for_response := false;
     SetupFIFOInterface.active_address := 0;
     SetupFIFOInterface.data_r_stb := true;
     SetupFIFOInterface.reset_w_stb := false;
     SetupFIFOInterface.reset_w_data := false;
     SetupFIFOInterface.address_w_stb := false;
     SetupFIFOInterface.address_w_data := 0 |}.

(** The IN manager with three bytes queued and endpoint 2 primed. *)
Definition in_primed_three : InFIFOInterface.State :=
  InFIFOInterface.run 64 InFIFOInterface.reset_state
    [InSamples.write_byte 1; InSamples.write_byte 2; InSamples.write_byte 3;
     InSamples.idle; InSamples.prime 2 quiet_token].

(** A new SETUP token for endpoint [ep] while the controller writes '1' to
    the IN manager's [stall] CSR. *)
Definition in_setup_and_stall (ep : Z) : InFIFOInterface.Inputs :=
  {| InFIFOInterface.tokenizer := setup_token ep true;
     InFIFOInterface.tx_ready := false;
     InFIFOInterface.data_w_stb := false; InFIFOInterface.data_w_data := 0;
     InFIFOInterface.epno_w_stb := false; InFIFOInterface.epno_w_data := 0;
     InFIFOInterface.reset_w_stb := false;
     InFIFOInterface.stall_w_stb := true;
     InFIFOInterface.stall_w_data := true;
     InFIFOInterface.pid_w_stb := false;
     InFIFOInterface.pid_w_data := false |}.

(** The controller writes the IN manager's [reset] CSR. *)
Definition in_reset : InFIFOInterface.Inputs :=
  {| InFIFOInterface.tokenizer := quiet_token;
     InFIFOInterface.tx_ready := false;
     InFIFOInterface.data_w_stb := false; InFIFOInterface.data_w_data := 0;
     InFIFOInterface.epno_w_stb := false; InFIFOInterface.epno_w_data := 0;
     InFIFOInterface.reset_w_stb := true;
     InFIFOInterface.stall_w_stb := false;
     InFIFOInterface.stall_w_data := false;
     InFIFOInterface.pid_w_stb := false;
     InFIFOInterface.pid_w_data := false |}.

(** The OUT manager with endpoint 1 selected and armed, nothing received. *)
Definition out_armed : OutFIFOInterface.State :=
  OutFIFOInterface.run OutFIFOInterface.reset_state
    [OutSamples.select 1; OutSamples.arm true].

(** The controller reads the OUT [data] CSR; the bus is idle. *)
Definition out_read : OutFIFOInterface.Inputs :=
  {| OutFIFOInterface.tokenizer := quiet_token;
     OutFIFOInterface.rx_valid := false; OutFIFOInterface.rx_next := false;
     OutFIFOInterface.rx_payload := 0;
     OutFIFOInterface.rx_ready_for_response := false;
     OutFIFOInterface.data_r_stb := true;
     OutFIFOInterface.reset_w_stb := false;
     OutFIFOInterface.epno_w_stb := false; OutFIFOInterface.epno_w_data := 0;
     OutFIFOInterface.enable_w_stb := false;
     OutFIFOInterface.enable_w_data := false;
     OutFIFOInterface.stall_w_stb := false;
     OutFIFOInterface.stall_w_data := false |}.

(** The controller writes [v] to the OUT manager's [stall] CSR. *)
Definition out_set_stall (v : bool) : OutFIFOInterface.Inputs :=
  {| OutFIFOInterface.tokenizer := quiet_token;
     OutFIFOInterface.rx_valid := false; OutFIFOInterface.rx_next := false;
     OutFIFOInterface.rx_payload := 0;
     OutFIFOInterface.rx_ready_for_response := false;
     OutFIFOInterface.data_r_stb := false;
     OutFIFOInterface.reset_w_stb := false;
     OutFIFOInterface.epno_w_stb := false; OutFIFOInterface.epno_w_data := 0;
     OutFIFOInterface.enable_w_stb := false;
     OutFIFOInterface.enable_w_data := false;
     OutFIFOInterface.stall_w_stb := true;
     OutFIFOInterface.stall_w_data := v |}.

(** Endpoint 1 selected, armed and then stalled. *)
Definition out_armed_and_stalled : OutFIFOInterface.State :=
  OutFIFOInterface.run out_armed [out_set_stall true].

(** The streaming endpoint with one element at the head of its FIFO:
    payload 0x5A, the last byte of its packet. *)
Definition stream_one_element : USBStreamOutEndpoint.State :=
  {| USBStreamOutEndpoint.is_first_byte := true;
     USBStreamOutEndpoint.expected_data_toggle := true;
     USBStreamOutEndpoint.fifo :=
       {| TransactionalizedFIFO.visible :=
            [USBStreamOutEndpoint.pack 0x5A true false];
          TransactionalizedFIFO.in_flight := [] |} |}.

(** Command lines. *)
Definition no_options : TopLevelCli.Args :=
  {| TopLevelCli.output := None; TopLevelCli.erase := false;
     TopLevelCli.upload := false; TopLevelCli.flash := false;
     TopLevelCli.dry_run := false; TopLevelCli.keep_files := false;
     TopLevelCli.generate_c_header := false;
     TopLevelCli.generate_ld_script := false |}.

Definition flash_erase_upload : TopLevelCli.Args :=
  {| TopLevelCli.output := None; TopLevelCli.erase := true;
     TopLevelCli.upload := true; TopLevelCli.flash := true;
     TopLevelCli.dry_run := false; TopLevelCli.keep_files := true;
     TopLevelCli.generate_c_header := false;
     TopLevelCli.generate_ld_script := false |}.

Definition header_and_more : TopLevelCli.Args :=
  {| TopLevelCli.output := Some "top.bit"%string; TopLevelCli.erase := true;
     TopLevelCli.upload := true; TopLevelCli.flash := false;
     TopLevelCli.dry_run := false; TopLevelCli.keep_files := false;
     TopLevelCli.generate_c_header := true;
     TopLevelCli.generate_ld_script := true |}.

Definition empty_output : TopLevelCli.Args :=
  {| TopLevelCli.output := Some EmptyString; TopLevelCli.erase := false;
     TopLevelCli.upload := false; TopLevelCli.flash := false;
     TopLevelCli.dry_run := false; TopLevelCli.keep_files := false;
     TopLevelCli.generate_c_header := false;
     TopLevelCli.generate_ld_script := false |}.

Definition dry_run_only : TopLevelCli.Args :=
  {| TopLevelCli.output := None; TopLevelCli.erase := false;
     TopLevelCli.upload := false; TopLevelCli.flash := false;
     TopLevelCli.dry_run := true; TopLevelCli.keep_files := false;
     TopLevelCli.generate_c_header := false;
     TopLevelCli.generate_ld_script := false |}.

(** A terminal, a temporary directory and a board on which nothing
    fails. *)
Definition calm_world : TopLevelCli.World :=
  TopLevelCli.calm true "/tmp/tmpk3"%string "LUNA"%string.

(** The same, but the build raises. *)
Definition failing_build : TopLevelCli.World :=
  {| TopLevelCli.isatty := false;
     TopLevelCli.tempdir := "/tmp/tmpk3"%string;
     TopLevelCli.platform_name := "LUNA"%string;
     TopLevelCli.fails := fun e => TopLevelCli.is_build e |}.

End MoreSamples.

(** * Properties *)

(** ** Setup-phase capture *)
Section SetupProperties.
Import SetupFIFOInterface.

(** C1: for every SETUP token, when the link layer asserts
    ready-for-response the setup interface drives ACK, whatever its
    registers hold (so whatever the fill level of its FIFO; the interface
    has no stall flag to consult), and it drives neither NAK nor STALL. *)
Theorem setup_always_acks (s : State) (i : Inputs) :
  is_setup (tokenizer i) = true ->
  rx_ready_for_response i = true ->
  ack (comb s i) = true /\ nak (comb s i) = false
  /\ stall (comb s i) = false.
Proof.
  intros Hsetup Hready. unfold comb; cbn.
  rewrite Hsetup, Hready. repeat split.
Qed.

Lemma setup_always_acks_witness :
  SyncFIFOBuffered.w_rdy 10 (fifo (run SetupSamples.captured
     (map (SetupSamples.data_byte 0) [1; 2; 3]))) = false
  /\ ack (comb (run SetupSamples.captured
                  (map (SetupSamples.data_byte 0) [1; 2; 3]))
               (SetupSamples.response_due 0)) = true.
Proof.
  split; [reflexivity |].
  apply (setup_always_acks _ (SetupSamples.response_due 0));
    reflexivity.
Defined.

(** NAK and STALL are never driven by the setup interface, for any token. *)
Lemma setup_never_naks_or_stalls (s : State) (i : Inputs) :
  nak (comb s i) = false /\ stall (comb s i) = false.
Proof. split; reflexivity. Qed.

(** What [tick] computes does not depend on the [reset] CSR. *)
Lemma setup_tick_ignores_reset_csr (s : State) (i : Inputs) (stb data : bool) :
  tick s (SetupSamples.with_reset_access i stb data) = tick s i.
Proof. reflexivity. Qed.

(** A new SETUP token empties the FIFO. *)
Lemma setup_new_token_clears_fifo (s : State) (i i' : Inputs) :
  new_setup i = true ->
  SyncFIFOBuffered.contents (fifo (tick s i)) = []
  /\ have_r_data (comb (tick s i) i') = false.
Proof.
  intros Hnew. unfold tick, SyncFIFOBuffered.tick; cbn.
  rewrite Hnew. split; reflexivity.
Qed.

(** C8 (the controller's reset write): after a SETUP packet has been
    captured, a write of '1' to the [reset] CSR changes no register: the
    eight captured bytes are all still queued and the data-available flag
    is still high in the next tick. *)
Theorem setup_reset_write_keeps_fifo :
  SyncFIFOBuffered.contents (fifo SetupSamples.captured)
    = [0x80; 0x06; 0x00; 0x01; 0x00; 0x00; 0x40; 0x00]
  /\ tick SetupSamples.captured SetupSamples.reset_write
     = SetupSamples.captured
  /\ have_r_data (comb (tick SetupSamples.captured SetupSamples.reset_write)
                       SetupSamples.idle) = true.
Proof. repeat split; vm_compute; reflexivity. Qed.

End SetupProperties.

(** While the token on the bus is a SETUP token (so neither IN nor OUT), the
    IN and OUT managers drive no handshake at all, whatever their stall
    tables hold: the setup interface's ACK is the only response. *)
Lemma setup_token_silences_in_and_out
    (sin : InFIFOInterface.State) (iin : InFIFOInterface.Inputs)
    (sout : OutFIFOInterface.State) (iout : OutFIFOInterface.Inputs) :
  is_in (InFIFOInterface.tokenizer iin) = false ->
  is_out (OutFIFOInterface.tokenizer iout) = false ->
  InFIFOInterface.stall (InFIFOInterface.comb sin iin) = false
  /\ InFIFOInterface.nak (InFIFOInterface.comb sin iin) = false
  /\ OutFIFOInterface.stall (OutFIFOInterface.comb sout iout) = false
  /\ OutFIFOInterface.nak (OutFIFOInterface.comb sout iout) = false
  /\ OutFIFOInterface.ack (OutFIFOInterface.comb sout iout) = false.
Proof.
  intros Hin Hout.
  unfold InFIFOInterface.comb, InFIFOInterface.new_in_token,
    OutFIFOInterface.comb, OutFIFOInterface.nak_receives,
    OutFIFOInterface.allow_receive, OutFIFOInterface.stalled.
  rewrite Hin, Hout. cbn.
  rewrite !andb_false_r.
  destruct (InFIFOInterface.fsm sin); repeat split.
Qed.

(** ** IN transaction manager *)
Section InProperties.
Import InFIFOInterface.

Variable max_packet_size : Z.

(** C5: in IDLE and in PRIMED, an IN token whose endpoint has its stall bit
    set is answered STALL, whatever the transmit FIFO holds; no NAK is
    driven, nothing is put on the transmit stream, no byte leaves the FIFO
    and the state machine moves to neither SEND_ZLP nor SEND_DATA. *)
Theorem in_stall_takes_precedence (s : State) (i : Inputs) :
  fsm s = IDLE \/ fsm s = PRIMED ->
  is_in (tokenizer i) = true ->
  ready_for_response (tokenizer i) = true ->
  array_get (endpoint_stalled s) (endpoint (tokenizer i)) = true ->
  stall (comb s i) = true
  /\ nak (comb s i) = false
  /\ tx_valid (comb s i) = false
  /\ fifo_r_en (comb s i) = false
  /\ fsm (tick max_packet_size s i) = fsm s.
Proof.
  intros Hstate Hin Hready Hstalled.
  unfold tick, comb, fsm_tick, new_in_token, stalled; cbn.
  rewrite Hin, Hready, Hstalled; cbn.
  destruct Hstate as [-> | ->]; cbn; rewrite ?andb_false_r; repeat split.
Qed.

End InProperties.

Lemma in_stall_takes_precedence_witness :
  InFIFOInterface.fsm InSamples.primed_and_stalled = InFIFOInterface.PRIMED
  /\ InFIFOInterface.have_r_data
       (InFIFOInterface.status InSamples.primed_and_stalled
          (InSamples.bus (in_token 2) false)) = true
  /\ InFIFOInterface.stall
       (InFIFOInterface.comb InSamples.primed_and_stalled
          (InSamples.bus (in_token 2) false)) = true.
Proof.
  split; [reflexivity |]. split; [reflexivity |].
  apply (in_stall_takes_precedence 64 InSamples.primed_and_stalled
           (InSamples.bus (in_token 2) false));
    [right; reflexivity | reflexivity | reflexivity | reflexivity].
Defined.

Section InPriming.
Import InFIFOInterface.

Variable max_packet_size : Z.


(** X30: [tx.first] is only ever high while a data packet is being sent,
    so a zero-length packet goes out with [first] low. *)
Lemma tx_first_only_in_send_data (s : State) :
  reachable max_packet_size s -> tx_first s = true -> fsm s = SEND_DATA.
Proof.
  induction 1 as [| s i Hreach IH]; [discriminate |].
  unfold tick, fsm_tick; cbn.
  destruct (fsm s) eqn:Hfsm; cbn.
  - intros Hfirst. specialize (IH Hfirst). discriminate.
  - destruct (new_in_token i); [| intros Hf; specialize (IH Hf); discriminate].
    destruct (stalled s i); [intros Hf; specialize (IH Hf); discriminate |].
    destruct (endpoint_matches s i);
      [| intros Hf; specialize (IH Hf); discriminate].
    destruct (SyncFIFOBuffered.r_rdy (fifo s)); cbn;
      [reflexivity | intros Hf; specialize (IH Hf); discriminate].
  - intros Hfirst. specialize (IH Hfirst). discriminate.
  - destruct (tx_ready i); [discriminate |].
    rewrite andb_false_r. reflexivity.
Qed.


(** The prime guard as it is written, [self.epno.w_stb & ~stalled] with
    [stalled = endpoint_stalled[token.endpoint]]: in IDLE, a write to the
    [epno] CSR takes the state machine to PRIMED exactly when the stall flag
    of the endpoint of the token currently on the token detector is clear,
    whichever endpoint is being primed; without such a write the state
    machine stays in IDLE. *)
Theorem in_prime_gated_on_token_endpoint (s : State) (i : Inputs) :
  fsm s = IDLE ->
  (epno_w_stb i = true ->
   (fsm (tick max_packet_size s i) = PRIMED
    <-> array_get (endpoint_stalled s) (endpoint (tokenizer i)) = false))
  /\ (epno_w_stb i = false -> fsm (tick max_packet_size s i) = IDLE).
Proof.
  intros Hfsm. unfold tick, fsm_tick, stalled; cbn. rewrite Hfsm.
  split; intros ->; cbn; [| reflexivity].
  destruct (array_get _ _); cbn; split; congruence.
Qed.

End InPriming.


Lemma in_prime_gated_on_token_endpoint_witness :
  InFIFOInterface.fsm
    (InFIFOInterface.tick 64 InSamples.ep0_stalled
       (InSamples.prime 0 (out_token 1))) = InFIFOInterface.PRIMED.
Proof.
  apply (proj1 (in_prime_gated_on_token_endpoint 64 InSamples.ep0_stalled
                  (InSamples.prime 0 (out_token 1)) eq_refl));
    reflexivity.
Defined.

(** The stall flag of the endpoint being primed does not decide the
    transition: endpoint 0 is stalled and the state machine idle; the last
    token seen was for endpoint 1, which is not stalled; the controller
    primes the stalled endpoint 0 and PRIMED is entered. *)
Lemma in_prime_stalled_endpoint_counterexample :
  ~ (forall (s : InFIFOInterface.State) (i : InFIFOInterface.Inputs),
       InFIFOInterface.fsm s = InFIFOInterface.IDLE ->
       InFIFOInterface.epno_w_stb i = true ->
       (InFIFOInterface.fsm (InFIFOInterface.tick 64 s i)
          = InFIFOInterface.PRIMED
        <-> array_get (InFIFOInterface.endpoint_stalled s)
              (InFIFOInterface.epno_w_data i) = false)).
Proof.
  intros Hclaim.
  specialize (Hclaim InSamples.ep0_stalled (InSamples.prime 0 (out_token 1))
                eq_refl eq_refl).
  destruct Hclaim as [Hprimed _].
  specialize (Hprimed eq_refl). vm_compute in Hprimed. discriminate.
Qed.

(** C9: the prime guard consults the wrong endpoint.  With endpoint 0
    stalled and the state machine in IDLE: while the token detector shows a
    token for the non-stalled endpoint 1, a prime of the stalled endpoint 0
    enters PRIMED; and while it shows a token for the stalled endpoint 0, a
    prime of the non-stalled endpoint 2 is lost, the state machine staying
    in IDLE. *)
Theorem in_prime_checks_wrong_endpoint :
  InFIFOInterface.fsm InSamples.ep0_stalled = InFIFOInterface.IDLE
  /\ array_get (InFIFOInterface.endpoint_stalled InSamples.ep0_stalled) 0
     = true
  /\ array_get (InFIFOInterface.endpoint_stalled InSamples.ep0_stalled) 2
     = false
  /\ InFIFOInterface.fsm
       (InFIFOInterface.tick 64 InSamples.ep0_stalled
          (InSamples.prime 0 (out_token 1))) = InFIFOInterface.PRIMED
  /\ InFIFOInterface.fsm
       (InFIFOInterface.tick 64 InSamples.ep0_stalled
          (InSamples.prime 2 (out_token 0))) = InFIFOInterface.IDLE.
Proof. repeat split. Qed.

(** ** OUT transaction manager *)
Section OutProperties.
Import OutFIFOInterface.

(** Disarmed, the manager neither ACKs nor buffers. *)
Lemma disarmed_no_receive (s : State) (i : Inputs) :
  enable_r_data s = false ->
  allow_receive s i = false
  /\ ack (comb s i) = false /\ fifo_w_en (comb s i) = false.
Proof.
  intros Hoff.
  assert (Hallow : allow_receive s i = false).
  { unfold allow_receive. rewrite Hoff.
    destruct (endpoint_matches s i); reflexivity. }
  unfold comb; cbn. rewrite Hallow. repeat split.
Qed.

(** The ACK tick clears [enable], also against a simultaneous write. *)
Lemma ack_clears_enable (s : State) (i : Inputs) :
  ack (comb s i) = true -> enable_r_data (tick s i) = false.
Proof. intros Hack. unfold tick, next_enable; cbn in *. rewrite Hack. reflexivity. Qed.

(** Without a re-arming write, a disarmed manager stays disarmed. *)
Lemma disarmed_stays_disarmed (ins : list Inputs) (s : State) :
  enable_r_data s = false ->
  Forall (fun j => rearms j = false) ins ->
  enable_r_data (run s ins) = false.
Proof.
  revert s. induction ins as [| j rest IH]; intros s Hoff Hquiet; [exact Hoff |].
  inversion Hquiet as [| ? ? Hj Hrest]; subst. cbn [run].
  apply IH; [| exact Hrest].
  unfold tick, next_enable; cbn.
  destruct (allow_receive s j && rx_ready_for_response j); [reflexivity |].
  unfold rearms in Hj. rewrite Hoff.
  destruct (enable_w_stb j); [exact Hj | reflexivity].
Qed.

(** C4: the tick in which a packet is ACK'd clears [enable]; from then on,
    for as long as the controller does not write '1' to [enable], the
    manager ACKs nothing and writes nothing to its FIFO, and an OUT token to
    a non-stalled endpoint (the selected one included) is answered NAK when
    its handshake is due. *)
Theorem out_arm_is_one_shot (s : State) (i : Inputs) (ins : list Inputs) :
  ack (comb s i) = true ->
  Forall (fun j => rearms j = false) ins ->
  let s2 := run (tick s i) ins in
  enable_r_data (tick s i) = false
  /\ forall i2 : Inputs,
       ack (comb s2 i2) = false
       /\ fifo_w_en (comb s2 i2) = false
       /\ (is_out (tokenizer i2) = true ->
           array_get (endpoint_stalled s2) (endpoint (tokenizer i2)) = false ->
           rx_ready_for_response i2 = true ->
           nak (comb s2 i2) = true /\ stall (comb s2 i2) = false).
Proof.
  intros Hack Hquiet s2.
  pose proof (ack_clears_enable s i Hack) as Hcleared.
  split; [exact Hcleared |].
  assert (Hoff : enable_r_data s2 = false)
    by (apply disarmed_stays_disarmed; assumption).
  clearbody s2. intros i2.
  destruct (disarmed_no_receive s2 i2 Hoff) as (Hallow & Hnoack & Hnow).
  split; [exact Hnoack |]. split; [exact Hnow |].
  intros Hout Hfree Hready.
  unfold comb, nak_receives, stalled; cbn.
  rewrite Hallow, Hout, Hfree, Hready. split; reflexivity.
Qed.

(** C10: when the controller writes '1' to [enable] in the tick in which
    the ACK handshake is issued, the clearing wins: [enable] reads 0 in the
    following tick. *)
Theorem out_ack_overrides_arm_write (s : State) (i : Inputs) :
  enable_w_stb i = true ->
  enable_w_data i = true ->
  ack (comb s i) = true ->
  enable_r_data (tick s i) = false.
Proof. intros _ _ Hack. exact (ack_clears_enable s i Hack). Qed.

End OutProperties.

Lemma out_arm_is_one_shot_witness :
  OutFIFOInterface.ack
    (OutFIFOInterface.comb OutSamples.receiving (OutSamples.response_due 1))
    = true
  /\ OutFIFOInterface.nak
       (OutFIFOInterface.comb
          (OutFIFOInterface.run
             (OutFIFOInterface.tick OutSamples.receiving
                (OutSamples.response_due 1))
             [OutSamples.idle; OutSamples.data_byte 1 0x33])
          (OutSamples.response_due 1)) = true.
Proof.
  split; [reflexivity |].
  apply (out_arm_is_one_shot OutSamples.receiving (OutSamples.response_due 1)
           [OutSamples.idle; OutSamples.data_byte 1 0x33]);
    [reflexivity | repeat constructor | reflexivity | reflexivity
    | reflexivity].
Defined.

Lemma out_ack_overrides_arm_write_witness :
  OutFIFOInterface.enable_r_data OutSamples.receiving = true
  /\ OutFIFOInterface.enable_r_data
       (OutFIFOInterface.tick OutSamples.receiving
          (OutSamples.response_due_and_arm 1)) = false.
Proof.
  split; [reflexivity |].
  apply (out_ack_overrides_arm_write OutSamples.receiving
           (OutSamples.response_due_and_arm 1));
    reflexivity.
Defined.

(** ** Transactional FIFO *)
Section FifoProperties.
Import TransactionalizedFIFO.

Variable depth : Z.

(** A tick without write adds nothing to what the FIFO holds. *)
Lemma tick_without_write (f : t) (x : Z) (c d r : bool) :
  stored (tick depth f false x c d r) `sublist_of` stored f.
Proof.
  unfold tick, stored.
  assert (Hread : visible (if r then read f else f) `sublist_of` visible f).
  { destruct r; [| reflexivity]. cbn.
    destruct (visible f) as [| y v]; [reflexivity |]. cbn.
    apply sublist_cons. reflexivity. }
  assert (Hkeep : in_flight (if r then read f else f) = in_flight f)
    by (destruct r; reflexivity).
  set (f1 := if r then read f else f) in *. clearbody f1.
  destruct c, d; cbn; rewrite ?Hkeep, ?app_nil_r.
  - apply sublist_app; [exact Hread | reflexivity].
  - apply sublist_app; [exact Hread | reflexivity].
  - apply sublist_inserts_r. exact Hread.
  - apply sublist_app; [exact Hread | reflexivity].
Qed.

(** Without commit, the reader's side changes only by the reader's own pop. *)
Lemma tick_without_commit (f : t) (w : bool) (x : Z) (d r : bool) :
  visible (tick depth f w x false d r)
    = if r then tail (visible f) else visible f.
Proof.
  unfold tick, write.
  destruct r, w, d; cbn; try reflexivity;
    match goal with |- context [full ?n ?g] => destruct (full n g) end;
    reflexivity.
Qed.

(** A commit makes the whole in-flight run visible, behind what was visible
    already, followed by the byte written in the same tick, if any. *)
Lemma tick_with_commit (f : t) (w : bool) (x : Z) (d r : bool) :
  in_flight (tick depth f w x true d r) = []
  /\ exists rest : list Z,
       (length rest <= 1)%nat
       /\ visible (tick depth f w x true d r)
          = (if r then tail (visible f) else visible f)
            ++ in_flight f ++ rest.
Proof.
  unfold tick, write.
  split.
  - destruct d; reflexivity.
  - destruct w.
    + destruct (full depth (if r then read f else f)).
      * exists []. split; [cbn; lia |].
        destruct r, d; cbn; rewrite app_nil_r; reflexivity.
      * exists [x]. split; [cbn; lia |].
        destruct r, d; cbn; reflexivity.
    + exists []. split; [cbn; lia |].
      destruct r, d; cbn; rewrite app_nil_r; reflexivity.
Qed.

(** A discard leaves no in-flight byte. *)
Lemma tick_with_discard (f : t) (w : bool) (x : Z) (c r : bool) :
  in_flight (tick depth f w x c true r) = [].
Proof. reflexivity. Qed.

End FifoProperties.

(** ** Streaming OUT endpoint *)
Section StreamOutProperties.
Import USBStreamOutEndpoint.

Variable cfg : Config.

(** One tick of an OUT data token for this endpoint with the wrong toggle. *)
Lemma skipped_tick (s : State) (i : Inputs) :
  mismatched_out cfg (expected_data_toggle s) i ->
  okay_to_receive cfg s i = false
  /\ should_skip cfg s i = true
  /\ fifo_write_en (comb cfg s i) = false
  /\ (rx_ready_for_response i = true ->
      ack (comb cfg s i) = true /\ nak (comb cfg s i) = false)
  /\ expected_data_toggle (tick cfg s i) = expected_data_toggle s
  /\ TransactionalizedFIFO.stored (fifo (tick cfg s i))
       `sublist_of` TransactionalizedFIFO.stored (fifo s).
Proof.
  intros (Hep & Hout & Hping & Htoggle).
  assert (Hpid : expected_pid_match s i = false).
  { unfold expected_pid_match. apply Bool.eqb_false_iff. exact Htoggle. }
  assert (Htarget : targeting_endpoint cfg i = true)
    by (unfold targeting_endpoint; rewrite Hep, Hout; reflexivity).
  assert (Hokay : okay_to_receive cfg s i = false)
    by (unfold okay_to_receive; rewrite Hpid; apply andb_false_r).
  assert (Hskip : should_skip cfg s i = true)
    by (unfold should_skip; rewrite Htarget, Hpid; reflexivity).
  assert (Hwrite : fifo_write_en (comb cfg s i) = false)
    by (cbn; rewrite Hokay; reflexivity).
  repeat (split; [assumption |]).
  split; [| split].
  - intros Hready. cbn.
    unfold data_response_requested, ping_response_requested.
    rewrite Hokay, Hskip, Htarget, Hout, Hready, Hping, Hep. split; reflexivity.
  - unfold tick; cbn. rewrite Hokay, andb_false_r. reflexivity.
  - unfold tick. cbv zeta. cbn [fifo]. rewrite Hwrite.
    apply tick_without_write.
Qed.

(** C2: over the ticks of an OUT data transaction on this endpoint whose
    data toggle is not the expected one, no tick enables a FIFO write, the
    tick in which the handshake is due drives ACK and not NAK, and after the
    transaction the expected toggle is what it was and the FIFO holds no
    byte that it did not hold before. *)
Theorem stream_out_toggle_mismatch (ins : list Inputs) (s : State) :
  Forall (mismatched_out cfg (expected_data_toggle s)) ins ->
  Forall (fun io : Inputs * Outputs =>
            fifo_write_en (snd io) = false
            /\ (rx_ready_for_response (fst io) = true ->
                ack (snd io) = true /\ nak (snd io) = false))
         (trace cfg s ins)
  /\ expected_data_toggle (run cfg s ins) = expected_data_toggle s
  /\ TransactionalizedFIFO.stored (fifo (run cfg s ins))
       `sublist_of` TransactionalizedFIFO.stored (fifo s).
Proof.
  revert s. induction ins as [| i rest IH]; intros s Hall.
  - cbn. split; [constructor |]. split; reflexivity.
  - inversion Hall as [| ? ? Hi Hrest]; subst.
    destruct (skipped_tick s i Hi) as (_ & _ & Hwrite & Hack & Htoggle & Hsub).
    rewrite <- Htoggle in Hrest.
    destruct (IH (tick cfg s i) Hrest) as (Htrace & Hkeep & Hstored).
    cbn [trace run]. split; [| split].
    + constructor; [split; assumption | exact Htrace].
    + rewrite Hkeep. exact Htoggle.
    + etransitivity; [exact Hstored | exact Hsub].
Qed.

(** Without a commit, what the consumer takes from the stream over a run of
    ticks is a prefix of what was visible at its start, and what stays
    visible is the rest. *)
Lemma run_without_commit (ins : list Inputs) (s : State) :
  Forall (fun j => complete_out j = false) ins ->
  exists k : nat,
    TransactionalizedFIFO.visible (fifo (run cfg s ins))
      = drop k (TransactionalizedFIFO.visible (fifo s))
    /\ consumed cfg s ins
       = take k (map (trunc 8) (TransactionalizedFIFO.visible (fifo s))).
Proof.
  revert s. induction ins as [| i rest IH]; intros s Hall.
  - exists 0%nat. split; reflexivity.
  - inversion Hall as [| ? ? Hi Hrest]; subst.
    destruct (IH (tick cfg s i) Hrest) as (k & Hvis & Hcons).
    assert (Hstep : TransactionalizedFIFO.visible (fifo (tick cfg s i))
                    = if stream_ready i
                      then tail (TransactionalizedFIFO.visible (fifo s))
                      else TransactionalizedFIFO.visible (fifo s)).
    { unfold tick. cbv zeta. cbn [fifo]. cbn [fifo_write_commit comb
        fifo_read_en]. rewrite Hi, andb_false_r. apply tick_without_commit. }
    cbn [run consumed]. rewrite Hvis, Hcons, Hstep.
    cbn [comb stream_valid stream_payload].
    unfold TransactionalizedFIFO.empty, TransactionalizedFIFO.read_data.
    destruct (stream_ready i), (TransactionalizedFIFO.visible (fifo s))
      as [| x v]; cbn [tail negb andb hd map app].
    + exists k. split; reflexivity.
    + exists (S k). split; reflexivity.
    + exists k. split; reflexivity.
    + exists k. split; reflexivity.
Qed.

(** C3: while a packet for this endpoint is in flight (no completion strobe
    yet), the consumer sees and takes only bytes that were visible before
    it.  In the tick that ends the packet the FIFO's commit is the valid-CRC
    strobe and its discard the invalid-CRC strobe.  With a valid CRC the
    in-flight run becomes visible, in order, behind the visible bytes, and
    nothing stays in flight.  Without it nothing becomes visible, and with
    an invalid CRC the in-flight run is dropped. *)
Theorem stream_out_commit_iff_valid_crc
    (s : State) (ins : list Inputs) (i : Inputs) :
  Forall (fun j => complete_out j = false) ins ->
  targeting_endpoint cfg i = true ->
  let s1 := run cfg s ins in
  let popped := if stream_ready i
                then tail (TransactionalizedFIFO.visible (fifo s1))
                else TransactionalizedFIFO.visible (fifo s1) in
  (exists k : nat,
     TransactionalizedFIFO.visible (fifo s1)
       = drop k (TransactionalizedFIFO.visible (fifo s))
     /\ consumed cfg s ins
        = take k (map (trunc 8) (TransactionalizedFIFO.visible (fifo s))))
  /\ fifo_write_commit (comb cfg s1 i) = complete_out i
  /\ fifo_write_discard (comb cfg s1 i) = invalid_out i
  /\ (complete_out i = true ->
      TransactionalizedFIFO.in_flight (fifo (tick cfg s1 i)) = []
      /\ exists rest : list Z,
           (length rest <= 1)%nat
           /\ TransactionalizedFIFO.visible (fifo (tick cfg s1 i))
              = popped ++ TransactionalizedFIFO.in_flight (fifo s1) ++ rest)
  /\ (complete_out i = false ->
      TransactionalizedFIFO.visible (fifo (tick cfg s1 i)) = popped)
  /\ (invalid_out i = true ->
      TransactionalizedFIFO.in_flight (fifo (tick cfg s1 i)) = []).
Proof.
  intros Hflight Htarget s1 popped.
  split; [apply run_without_commit; exact Hflight |].
  subst popped. clearbody s1.
  assert (Hcommit : fifo_write_commit (comb cfg s1 i) = complete_out i)
    by (cbn; rewrite Htarget; reflexivity).
  assert (Hdiscard : fifo_write_discard (comb cfg s1 i) = invalid_out i)
    by (cbn; rewrite Htarget; reflexivity).
  split; [exact Hcommit |]. split; [exact Hdiscard |].
  unfold tick. cbv zeta. cbn [fifo]. rewrite Hcommit, Hdiscard.
  cbn [fifo_read_en comb].
  split; [| split].
  - intros ->. apply tick_with_commit.
  - intros ->. apply tick_without_commit.
  - intros ->. apply tick_with_discard.
Qed.

(** C7, as the code has it: with less than one max-packet-size of space
    free, and for a token that is not flagged both OUT and PING, a PING
    token for this endpoint and an OUT data token for it that carries the
    expected data toggle are answered NAK, and not ACK, when their response
    is due; an OUT data token with the other toggle is answered ACK, and not
    NAK, whatever the space; and the endpoint never drives STALL. *)
Theorem stream_out_naks_without_space (s : State) (i : Inputs) :
  endpoint_number_matches cfg i = true ->
  TransactionalizedFIFO.space_available (buffer_size cfg) (fifo s)
    < max_packet_size cfg ->
  is_out (tokenizer i) && is_ping (tokenizer i) = false ->
  (is_ping (tokenizer i) = true ->
   ready_for_response (tokenizer i) = true ->
   nak (comb cfg s i) = true /\ ack (comb cfg s i) = false)
  /\ (is_out (tokenizer i) = true ->
      rx_ready_for_response i = true ->
      rx_pid_toggle i = expected_data_toggle s ->
      nak (comb cfg s i) = true /\ ack (comb cfg s i) = false)
  /\ (is_out (tokenizer i) = true ->
      rx_ready_for_response i = true ->
      rx_pid_toggle i <> expected_data_toggle s ->
      ack (comb cfg s i) = true /\ nak (comb cfg s i) = false)
  /\ forall (s' : State) (i' : Inputs), stall (comb cfg s' i') = false.
Proof.
  intros Hep Hspace Hone.
  assert (Hokay : okay_to_receive cfg s i = false).
  { unfold okay_to_receive, sufficient_space.
    replace (max_packet_size cfg <=? _) with false
      by (symmetry; apply Z.leb_gt; exact Hspace).
    rewrite andb_false_r. reflexivity. }
  cbn. rewrite Hokay.
  unfold data_response_requested, ping_response_requested, should_skip,
    targeting_endpoint, expected_pid_match.
  rewrite Hep.
  split; [| split; [| split; [| reflexivity]]].
  - intros Hping Hready. rewrite Hping in *.
    rewrite andb_true_r in Hone. rewrite Hone, Hready. split; reflexivity.
  - intros Hout Hready Htoggle. rewrite Hout in *. cbn in Hone.
    rewrite Hone, Hready, Htoggle, Bool.eqb_reflx. split; reflexivity.
  - intros Hout Hready Htoggle. rewrite Hout in *. cbn in Hone.
    rewrite Hone, Hready.
    replace (Bool.eqb (rx_pid_toggle i) (expected_data_toggle s)) with false
      by (symmetry; apply Bool.eqb_false_iff; exact Htoggle).
    split; reflexivity.
Qed.

End StreamOutProperties.

Lemma stream_out_toggle_mismatch_witness :
  USBStreamOutEndpoint.expected_data_toggle StreamSamples.one_received = true
  /\ USBStreamOutEndpoint.expected_data_toggle
       (USBStreamOutEndpoint.run StreamSamples.cfg StreamSamples.one_received
          (StreamSamples.packet 1 false [0x0A; 0x0B; 0x0C]))
     = USBStreamOutEndpoint.expected_data_toggle StreamSamples.one_received.
Proof.
  split; [reflexivity |].
  apply (stream_out_toggle_mismatch StreamSamples.cfg
           (StreamSamples.packet 1 false [0x0A; 0x0B; 0x0C])
           StreamSamples.one_received).
  repeat constructor; discriminate.
Defined.

Lemma stream_out_commit_iff_valid_crc_witness :
  USBStreamOutEndpoint.fifo
    (USBStreamOutEndpoint.run StreamSamples.cfg StreamSamples.one_received
       [StreamSamples.data_byte 1 true 0x0D; StreamSamples.consume;
        StreamSamples.data_byte 1 true 0x0E])
  = {| TransactionalizedFIFO.visible := [0x0B; 0x0C];
       TransactionalizedFIFO.in_flight := [0x0D; 0x0E] |}
  /\ TransactionalizedFIFO.visible
       (USBStreamOutEndpoint.fifo
          (USBStreamOutEndpoint.tick StreamSamples.cfg
             (USBStreamOutEndpoint.run StreamSamples.cfg
                StreamSamples.one_received
                [StreamSamples.data_byte 1 true 0x0D; StreamSamples.consume;
                 StreamSamples.data_byte 1 true 0x0E])
             (StreamSamples.crc_invalid 1 true)))
     = [0x0B; 0x0C].
Proof.
  split; [reflexivity |].
  apply (stream_out_commit_iff_valid_crc StreamSamples.cfg
           StreamSamples.one_received
           [StreamSamples.data_byte 1 true 0x0D; StreamSamples.consume;
            StreamSamples.data_byte 1 true 0x0E]
           (StreamSamples.crc_invalid 1 true));
    [repeat constructor | reflexivity | reflexivity].
Defined.

Lemma stream_out_naks_without_space_witness :
  USBStreamOutEndpoint.ack
    (USBStreamOutEndpoint.comb StreamSamples.cfg StreamSamples.one_received
       (StreamSamples.response_due 1 true)) = true
  /\ (USBStreamOutEndpoint.nak
        (USBStreamOutEndpoint.comb StreamSamples.cfg StreamSamples.nearly_full
           (StreamSamples.response_due 1 true)) = true
      /\ USBStreamOutEndpoint.ack
           (USBStreamOutEndpoint.comb StreamSamples.cfg
              StreamSamples.nearly_full
              (StreamSamples.response_due 1 true)) = false).
Proof.
  split; [reflexivity |].
  apply (stream_out_naks_without_space StreamSamples.cfg
           StreamSamples.nearly_full (StreamSamples.response_due 1 true));
    [reflexivity | vm_compute; reflexivity | reflexivity | reflexivity
    | reflexivity | reflexivity].
Defined.

(** C7, as stated, fails: seven bytes of space are left where a packet needs
    eight, DATA1 is expected, and an OUT data token for the endpoint arrives
    with DATA0; when its response is due the endpoint drives ACK, not NAK. *)
Lemma stream_out_nak_without_space_counterexample :
  ~ (forall (cfg : USBStreamOutEndpoint.Config)
            (s : USBStreamOutEndpoint.State)
            (i : USBStreamOutEndpoint.Inputs),
       USBStreamOutEndpoint.endpoint_number_matches cfg i = true ->
       TransactionalizedFIFO.space_available
         (USBStreamOutEndpoint.buffer_size cfg) (USBStreamOutEndpoint.fifo s)
         < USBStreamOutEndpoint.max_packet_size cfg ->
       (is_ping (USBStreamOutEndpoint.tokenizer i) = true
        /\ ready_for_response (USBStreamOutEndpoint.tokenizer i) = true)
       \/ (is_out (USBStreamOutEndpoint.tokenizer i) = true
           /\ USBStreamOutEndpoint.rx_ready_for_response i = true) ->
       USBStreamOutEndpoint.nak (USBStreamOutEndpoint.comb cfg s i) = true).
Proof.
  intros Hclaim.
  specialize (Hclaim StreamSamples.cfg StreamSamples.nearly_full
                (StreamSamples.response_due 1 false)).
  assert (Hnak : USBStreamOutEndpoint.nak
                   (USBStreamOutEndpoint.comb StreamSamples.cfg
                      StreamSamples.nearly_full
                      (StreamSamples.response_due 1 false)) = true).
  { apply Hclaim;
      [reflexivity | vm_compute; reflexivity | right; split; reflexivity]. }
  vm_compute in Hnak. discriminate.
Qed.

(** * Further properties of the gateware *)

(** ** The library FIFO as a queue *)
Section SyncFifoQueue.
Import SyncFIFOBuffered.

Variable depth : Z.

(** The unread entries after a tick without reset: the oldest one leaves
    when the reader takes it, an accepted write joins at the back. *)
Lemma contents_tick (f : t) (w : bool) (x : Z) (r : bool) :
  contents (tick depth f false w x r)
  = (if r && r_rdy f then tail (contents f) else contents f)
    ++ (if w && w_rdy depth f then [trunc 8 x] else []).
Proof.
  unfold tick, contents, inner_r_rdy.
  destruct f as [st d rdy]; cbn.
  destruct rdy, r, st as [| y st], (w && w_rdy depth _); cbn;
    rewrite ?app_nil_r; reflexivity.
Qed.

Lemma contents_reset (f : t) (w : bool) (x : Z) (r : bool) :
  contents (tick depth f true w x r) = [].
Proof. reflexivity. Qed.

(** The output register is valid after a tick when the inner queue held
    something, or when it was valid and has not been read. *)
Lemma r_rdy_tick (f : t) (w : bool) (x : Z) (r : bool) :
  r_rdy (tick depth f false w x r) = inner_r_rdy f || (r_rdy f && negb r).
Proof.
  unfold tick. cbn.
  destruct (inner_r_rdy f), (r_rdy f), r; reflexivity.
Qed.

(** What the reader sees is the oldest unread entry. *)
Lemma r_data_head (f : t) :
  r_rdy f = true -> contents f = r_data f :: storage f.
Proof. unfold contents. intros ->. reflexivity. Qed.

Lemma presented_after_quiet_tick (f : t) (x : Z) (r : bool) :
  presented (tick depth f false false x r).
Proof.
  unfold presented. rewrite r_rdy_tick.
  unfold tick, contents, inner_r_rdy. destruct f as [st d rdy]; cbn.
  destruct st as [| y st], rdy, r; cbn; try reflexivity; congruence.
Qed.

Lemma storage_le_contents (f : t) :
  (length (storage f) <= length (contents f))%nat.
Proof. unfold contents. rewrite length_app. lia. Qed.

(** There is room for a write as long as fewer than [depth - 1] entries are
    held. *)
Lemma w_rdy_room (f : t) :
  Z.of_nat (length (contents f)) < depth - 1 -> w_rdy depth f = true.
Proof.
  intros Hroom. unfold w_rdy. apply Z.ltb_lt.
  pose proof (storage_le_contents f). lia.
Qed.

End SyncFifoQueue.

Lemma trunc_idem (w x : Z) : trunc w (trunc w x) = trunc w x.
Proof. unfold trunc. rewrite <- Z.land_assoc, Z.land_diag. reflexivity. Qed.

(** ** Setup-phase capture: the packet and its read-out *)
Section SetupCapture.
Import SetupFIFOInterface SetupObservations.

Lemma setup_run_app (a b : list Inputs) (s : State) :
  run s (a ++ b) = run (run s a) b.
Proof. revert s. induction a as [| i a IH]; intros s; [reflexivity | apply IH]. Qed.

(** The FIFO's ports in one tick of the interface. *)
Lemma setup_fifo_tick (s : State) (i : Inputs) :
  fifo (tick s i)
  = SyncFIFOBuffered.tick 10 (fifo s) (new_setup i)
      (is_setup (tokenizer i) && rx_valid i && rx_next i)
      (trunc 8 (rx_payload i)) (data_r_stb i).
Proof. reflexivity. Qed.

(** Bytes of a SETUP data phase join the queue in order while there is
    room. *)
Lemma setup_capture_appends (bytes : list Z) (ins : list Inputs) :
  Forall2 delivers bytes ins ->
  forall s : State,
    Z.of_nat (length (SyncFIFOBuffered.contents (fifo s)) + length bytes) <= 9 ->
    SyncFIFOBuffered.contents (fifo (run s ins))
    = SyncFIFOBuffered.contents (fifo s) ++ map (trunc 8) bytes.
Proof.
  induction 1 as [| x i bytes ins Hx Hrest IH]; intros s Hroom.
  - cbn. rewrite app_nil_r. reflexivity.
  - destruct Hx as (Hsetup & Hnew & Hvalid & Hnext & Hpayload & Hread).
    cbn [run length map] in *.
    assert (Hstep : SyncFIFOBuffered.contents (fifo (tick s i))
                    = SyncFIFOBuffered.contents (fifo s) ++ [trunc 8 x]).
    { rewrite setup_fifo_tick. unfold new_setup.
      rewrite Hnew, Hsetup, Hvalid, Hnext, Hread. cbn [andb].
      rewrite contents_tick. cbn [andb].
      rewrite w_rdy_room by lia. rewrite trunc_idem, Hpayload. reflexivity. }
    rewrite IH; rewrite Hstep.
    + rewrite <- app_assoc. reflexivity.
    + rewrite length_app. cbn. lia.
Qed.

Lemma setup_capture_after_token
    (s : State) (i0 : Inputs) (bytes : list Z) (ins : list Inputs) :
  new_setup i0 = true ->
  Forall2 delivers bytes ins ->
  (length bytes <= 9)%nat ->
  SyncFIFOBuffered.contents (fifo (run (tick s i0) ins)) = map (trunc 8) bytes.
Proof.
  intros Hnew Hdata Hlen.
  assert (Hempty : SyncFIFOBuffered.contents (fifo (tick s i0)) = []).
  { rewrite setup_fifo_tick, Hnew. reflexivity. }
  rewrite (setup_capture_appends bytes ins Hdata); rewrite Hempty.
  - reflexivity.
  - cbn. lia.
Qed.

(** X1: a new SETUP token empties the FIFO, whatever it held, and the
    bytes of the data phase that follows (up to nine of them) are then
    queued in the order received, each cut to eight bits. *)
Theorem setup_packet_captured
    (s : State) (i0 : Inputs) (bytes : list Z) (ins : list Inputs) :
  new_setup i0 = true ->
  Forall2 delivers bytes ins ->
  (length bytes <= 9)%nat ->
  SyncFIFOBuffered.contents (fifo (run (tick s i0) ins)) = map (trunc 8) bytes.
Proof. apply setup_capture_after_token. Qed.

(** Reading the [data] CSR walks through the queue. *)
Lemma setup_read_out_takes (ins : list Inputs) :
  Forall (fun i => data_r_stb i = true /\ no_capture i) ins ->
  forall s : State,
    presented (fifo s) ->
    read_out s ins
    = take (length ins) (SyncFIFOBuffered.contents (fifo s))
    /\ SyncFIFOBuffered.contents (fifo (run s ins))
       = drop (length ins) (SyncFIFOBuffered.contents (fifo s)).
Proof.
  induction 1 as [| i ins (Hread & Hnew & Hquiet) Hrest IH]; intros s Hpres.
  - cbn. rewrite drop_0. split; reflexivity.
  - assert (Hfifo : fifo (tick s i)
                    = SyncFIFOBuffered.tick 10 (fifo s) false false
                        (trunc 8 (rx_payload i)) true).
    { rewrite setup_fifo_tick. cbn in Hquiet. rewrite Hnew, Hquiet, Hread.
      reflexivity. }
    assert (Hpres' : presented (fifo (tick s i)))
      by (rewrite Hfifo; apply presented_after_quiet_tick).
    destruct (IH (tick s i) Hpres') as (Hout & Hleft).
    cbn [run read_out length]. rewrite Hout, Hleft, Hfifo, contents_tick.
    cbn [andb]. rewrite app_nil_r.
    cbn [comb have_r_data data_r_data]. rewrite Hread. cbn [andb].
    destruct (SyncFIFOBuffered.contents (fifo s)) as [| x c] eqn:Hc.
    + assert (Hoff : SyncFIFOBuffered.r_rdy (fifo s) = false).
      { unfold SyncFIFOBuffered.contents in Hc.
        destruct (SyncFIFOBuffered.r_rdy (fifo s)); [discriminate | reflexivity]. }
      rewrite Hoff. cbn. rewrite take_nil, drop_nil. split; reflexivity.
    + assert (Hon : SyncFIFOBuffered.r_rdy (fifo s) = true)
        by (apply Hpres; rewrite Hc; discriminate).
      rewrite Hon. cbn [tail app].
      pose proof (r_data_head (fifo s) Hon) as Hhead.
      rewrite Hc in Hhead. injection Hhead as -> _.
      cbn. split; reflexivity.
Qed.

(** X2: round trip of a SETUP packet.  After the new SETUP token, its data
    bytes (nine at most) and one tick without capture or read, as many reads
    of the [data] CSR as there were bytes return those bytes in order, each
    cut to eight bits, and the data-available flag is low afterwards. *)
Theorem setup_packet_round_trip
    (s : State) (i0 j : Inputs) (bytes : list Z) (ins reads : list Inputs) :
  new_setup i0 = true ->
  Forall2 delivers bytes ins ->
  (length bytes <= 9)%nat ->
  no_capture j /\ data_r_stb j = false ->
  Forall (fun i => data_r_stb i = true /\ no_capture i) reads ->
  length reads = length bytes ->
  let s1 := run (tick s i0) (ins ++ [j]) in
  read_out s1 reads = map (trunc 8) bytes
  /\ forall i' : Inputs, have_r_data (comb (run s1 reads) i') = false.
Proof.
  intros Hnew Hdata Hlen ((Hjnew & Hjquiet) & Hjread) Hreads Hcount s1.
  assert (Hs1 : fifo s1
                = SyncFIFOBuffered.tick 10 (fifo (run (tick s i0) ins))
                    false false (trunc 8 (rx_payload j)) false).
  { unfold s1. rewrite setup_run_app. cbn [run]. rewrite setup_fifo_tick.
    cbn in Hjquiet. rewrite Hjnew, Hjquiet, Hjread. reflexivity. }
  assert (Hpres : presented (fifo s1))
    by (rewrite Hs1; apply presented_after_quiet_tick).
  assert (Hheld : SyncFIFOBuffered.contents (fifo s1) = map (trunc 8) bytes).
  { rewrite Hs1, contents_tick. cbn [andb]. rewrite app_nil_r.
    apply setup_capture_after_token; assumption. }
  destruct (setup_read_out_takes reads Hreads s1 Hpres) as (Hout & Hleft).
  clearbody s1. split.
  - rewrite Hout, Hheld, Hcount.
    rewrite <- (length_map (trunc 8) bytes). apply firstn_all.
  - intros i'. cbn [comb have_r_data].
    rewrite Hheld, Hcount in Hleft.
    rewrite <- (length_map (trunc 8) bytes), drop_all in Hleft.
    unfold SyncFIFOBuffered.contents in Hleft.
    destruct (SyncFIFOBuffered.r_rdy (fifo (run s1 reads)));
      [discriminate | reflexivity].
Qed.

(** X3: [epno] follows the token detector, not only SETUP tokens: after a
    run of ticks it holds the endpoint (four bits) of the last tick that
    carried a new token of any kind, and is unchanged if there was none. *)
Theorem setup_epno_tracks_last_token (ins : list Inputs) (s : State) :
  epno_r_data (run s ins)
  = match last_token_endpoint ins with
    | Some e => trunc 4 e
    | None => epno_r_data s
    end.
Proof.
  revert s. induction ins as [| i rest IH]; intros s; [reflexivity |].
  cbn [run last_token_endpoint]. rewrite IH.
  destruct (last_token_endpoint rest); [reflexivity |].
  cbn. destruct (new_token (tokenizer i)); reflexivity.
Qed.

(** X4: traffic that is not a SETUP transaction never reaches the SETUP
    FIFO: over any run of ticks without SETUP token and without a read by
    the controller, the queued bytes stay as they are. *)
Theorem setup_fifo_ignores_other_traffic (ins : list Inputs) (s : State) :
  Forall (fun i => is_setup (tokenizer i) = false /\ data_r_stb i = false)
         ins ->
  SyncFIFOBuffered.contents (fifo (run s ins))
  = SyncFIFOBuffered.contents (fifo s).
Proof.
  intros Hall. revert s.
  induction Hall as [| i rest (Hsetup & Hread) Hrest IH]; intros s;
    [reflexivity |].
  cbn [run]. rewrite IH, setup_fifo_tick. unfold new_setup.
  rewrite Hsetup, Hread, andb_false_r. cbn [andb].
  rewrite contents_tick. cbn [andb]. apply app_nil_r.
Qed.

End SetupCapture.

(** ** Widths and the stall table *)

(** A value within the range of [Signal(range(0, n + 1))] is stored as it
    is. *)
Lemma trunc_small (n x : Z) :
  1 <= n -> 0 <= x <= n -> trunc (bits_for n) x = x.
Proof.
  intros Hn Hx. unfold trunc, bits_for.
  pose proof (Z.log2_nonneg n) as Hlog.
  rewrite Z.land_ones by lia.
  apply Z.mod_small.
  pose proof (Z.log2_spec n ltac:(lia)) as [_ Hupper].
  replace (Z.succ (Z.log2 n)) with (Z.log2 n + 1) in Hupper by lia. lia.
Qed.

Lemma trunc4_range (x : Z) : 0 <= trunc 4 x < 16.
Proof.
  unfold trunc. rewrite Z.land_ones by lia.
  apply Z.mod_pos_bound. reflexivity.
Qed.

(** Clearing a flag and reading it back, whatever the table looks like. *)
Lemma array_get_clear (a : stall_array) (e : Z) :
  array_get (array_set a e false) e = false.
Proof.
  unfold array_get, array_set, stall_array in *.
  destruct (decide (Z.to_nat (trunc 4 e) < length a)%nat) as [Hin | Hout].
  - rewrite list_lookup_insert_eq by exact Hin. reflexivity.
  - rewrite list_insert_ge by lia.
    rewrite lookup_ge_None_2 by lia. reflexivity.
Qed.

(** Writing a flag of a sixteen-entry table and reading it back. *)
Lemma array_get_set_eq (a : stall_array) (e : Z) (v : bool) :
  length a = 16%nat -> array_get (array_set a e v) e = v.
Proof.
  intros Hlen. unfold array_get, array_set, stall_array in *.
  pose proof (trunc4_range e).
  rewrite list_lookup_insert_eq by lia. reflexivity.
Qed.

(** The other flags are not touched. *)
Lemma array_get_set_ne (a : stall_array) (e e' : Z) (v : bool) :
  trunc 4 e <> trunc 4 e' ->
  array_get (array_set a e v) e' = array_get a e'.
Proof.
  intros Hne. unfold array_get, array_set, stall_array in *.
  pose proof (trunc4_range e). pose proof (trunc4_range e').
  rewrite list_lookup_insert_ne by lia. reflexivity.
Qed.

Lemma array_set_length (a : stall_array) (e : Z) (v : bool) :
  length (array_set a e v) = length a.
Proof. unfold array_set, stall_array in *. apply length_insert. Qed.

Lemma level_contents (f : SyncFIFOBuffered.t) :
  SyncFIFOBuffered.level f
  = Z.of_nat (length (SyncFIFOBuffered.contents f)).
Proof.
  unfold SyncFIFOBuffered.level, SyncFIFOBuffered.contents.
  rewrite length_app. destruct (SyncFIFOBuffered.r_rdy f); cbn; lia.
Qed.

(** ** IN transaction manager: counter, transmission, priming *)
Section InTransmission.
Import InFIFOInterface InObservations.

Variable max_packet_size : Z.
Hypothesis packet_size_positive : 1 <= max_packet_size.

Lemma in_fifo_tick (s : State) (i : Inputs) :
  fifo (tick max_packet_size s i)
  = SyncFIFOBuffered.tick max_packet_size (fifo s) (reset_w_stb i)
      (data_w_stb i) (trunc 8 (data_w_data i)) (fifo_r_en (comb s i)).
Proof. reflexivity. Qed.

Lemma in_reachable_run (ins : list Inputs) (s : State) :
  reachable max_packet_size s ->
  reachable max_packet_size (run max_packet_size s ins).
Proof.
  revert s. induction ins as [| i rest IH]; intros s Hs; [exact Hs |].
  cbn [run]. apply IH. constructor. exact Hs.
Qed.

Lemma in_counter_step (s : State) (i : Inputs) :
  bytes_in_fifo s = SyncFIFOBuffered.level (fifo s) ->
  Z.of_nat (length (SyncFIFOBuffered.storage (fifo s)))
    <= max_packet_size - 1 ->
  bytes_in_fifo (tick max_packet_size s i)
    = SyncFIFOBuffered.level (fifo (tick max_packet_size s i))
  /\ Z.of_nat (length (SyncFIFOBuffered.storage
                         (fifo (tick max_packet_size s i))))
     <= max_packet_size - 1.
Proof.
  intros Hbytes Hbound.
  rewrite in_fifo_tick. unfold tick; cbn [bytes_in_fifo].
  unfold next_bytes_in_fifo. cbn [fifo_w_en status]. rewrite Hbytes.
  generalize (fifo_r_en (comb s i)) as r. intros r.
  unfold SyncFIFOBuffered.tick, SyncFIFOBuffered.level,
    SyncFIFOBuffered.w_rdy, SyncFIFOBuffered.inner_r_rdy in *.
  destruct (fifo s) as [st d rdy]. cbn [SyncFIFOBuffered.storage
    SyncFIFOBuffered.r_rdy SyncFIFOBuffered.r_data] in *.
  destruct (reset_w_stb i); [cbn; lia |].
  destruct (data_w_stb i),
    (Z.ltb_spec (Z.of_nat (length st)) (max_packet_size - 1)),
    rdy, r, st as [| y st];
    cbn [andb orb negb tail hd length Z.b2z SyncFIFOBuffered.storage
         SyncFIFOBuffered.r_rdy app] in *;
    rewrite ?length_app; cbn [length];
    repeat match goal with
           | |- context [trunc (bits_for max_packet_size) ?x] =>
               rewrite (trunc_small max_packet_size x) by lia
           end;
    lia.
Qed.

Lemma in_counter_invariant (s : State) :
  reachable max_packet_size s ->
  bytes_in_fifo s
    = Z.of_nat (length (SyncFIFOBuffered.contents (fifo s)))
  /\ bytes_in_fifo s <= max_packet_size.
Proof.
  intros Hreach.
  assert (Hinv : bytes_in_fifo s = SyncFIFOBuffered.level (fifo s)
                 /\ Z.of_nat (length (SyncFIFOBuffered.storage (fifo s)))
                    <= max_packet_size - 1).
  { induction Hreach as [| s i Hreach [IHb IHs]].
    - split; [reflexivity |]. change (0 <= max_packet_size - 1). lia.
    - apply in_counter_step; assumption. }
  destruct Hinv as [Hb Hs]. rewrite Hb, level_contents. split; [reflexivity |].
  unfold SyncFIFOBuffered.contents. rewrite length_app.
  destruct (SyncFIFOBuffered.r_rdy (fifo s)); cbn [length]; lia.
Qed.

(** X5: the byte counter [bytes_in_fifo] always equals the number of bytes
    the transmit FIFO holds, and that number never exceeds the maximum
    packet size. *)
Theorem in_counter_tracks_fifo (s : State) :
  reachable max_packet_size s ->
  bytes_in_fifo s
    = Z.of_nat (length (SyncFIFOBuffered.contents (fifo s)))
  /\ bytes_in_fifo s <= max_packet_size.
Proof. apply in_counter_invariant. Qed.

(** In SEND_DATA the drivers of the transmit stream are these. *)
Lemma in_comb_send_data (s : State) (i : Inputs) :
  fsm s = SEND_DATA ->
  comb s i
  = {| stall := false; nak := false; tx_valid := true;
       tx_last := last_packet s;
       tx_payload := SyncFIFOBuffered.r_data (fifo s);
       fifo_r_en := tx_ready i |}.
Proof. intros Hfsm. unfold comb. rewrite Hfsm. reflexivity. Qed.

(** Once in SEND_DATA with the FIFO readable, as many taking ticks as there
    are bytes send them all, mark the last one and end in IDLE. *)
Lemma in_send_data_loop (c : list Z) :
  forall (ins : list Inputs) (s : State) (first : bool),
    fsm s = SEND_DATA ->
    SyncFIFOBuffered.contents (fifo s) = c ->
    SyncFIFOBuffered.r_rdy (fifo s) = true ->
    bytes_in_fifo s = Z.of_nat (length c) ->
    Z.of_nat (length c) <= max_packet_size ->
    tx_first s = first ->
    Forall takes ins ->
    length ins = length c ->
    sent max_packet_size s ins = packet_beats first c
    /\ fsm (run max_packet_size s ins) = IDLE
    /\ SyncFIFOBuffered.contents (fifo (run max_packet_size s ins)) = [].
Proof.
  induction c as [| x c IH];
    intros ins s first Hfsm Hc Hrdy Hbytes Hbound Hfirst Htakes Hlen.
  - rewrite (r_data_head _ Hrdy) in Hc. discriminate.
  - destruct ins as [| i ins]; [discriminate |].
    inversion Htakes as [| ? ? (Hready & Hnowrite & Hnoreset) Hrest]; subst.
    injection Hlen as Hlen.
    pose proof (r_data_head _ Hrdy) as Hhead. rewrite Hc in Hhead.
    injection Hhead as Hx Hstorage.
    (* the FIFO after the tick *)
    assert (Hfifo : fifo (tick max_packet_size s i)
                    = SyncFIFOBuffered.tick max_packet_size (fifo s) false
                        false (trunc 8 (data_w_data i)) true).
    { rewrite in_fifo_tick, (in_comb_send_data s i Hfsm).
      cbn [fifo_r_en]. rewrite Hnoreset, Hnowrite, Hready. reflexivity. }
    assert (Hc' : SyncFIFOBuffered.contents (fifo (tick max_packet_size s i))
                  = c).
    { rewrite Hfifo, contents_tick, Hrdy, Hc. cbn [andb tail].
      apply app_nil_r. }
    (* the counter after the tick *)
    assert (Hbytes' : bytes_in_fifo (tick max_packet_size s i)
                      = Z.of_nat (length c)).
    { unfold tick; cbn [bytes_in_fifo]. unfold next_bytes_in_fifo.
      rewrite (in_comb_send_data s i Hfsm). cbn [fifo_w_en status fifo_r_en].
      rewrite Hnoreset, Hnowrite, Hready, Hrdy. cbn [andb negb].
      rewrite Hbytes. cbn [length] in *.
      rewrite (trunc_small max_packet_size) by lia. lia. }
    cbn [sent run]. rewrite (in_comb_send_data s i Hfsm).
    cbn [tx_valid tx_payload tx_last]. rewrite Hready. cbn [andb app].
    unfold last_packet. rewrite Hbytes, <- Hx.
    destruct c as [| y c].
    + destruct ins; [| discriminate]. cbn [sent run packet_beats length].
      rewrite Hc'. split; [reflexivity |]. split; [| reflexivity].
      unfold tick; cbn [fsm]. unfold fsm_tick, last_packet.
      rewrite Hfsm, Hbytes, Hready. reflexivity.
    + assert (Hmore : (Z.of_nat (length (x :: y :: c)) =? 1) = false)
        by (apply Z.eqb_neq; cbn [length]; lia).
      rewrite Hmore.
      assert (Hfsm' : fsm (tick max_packet_size s i) = SEND_DATA).
      { unfold tick; cbn [fsm]. unfold fsm_tick, last_packet.
        rewrite Hfsm, Hbytes, Hmore. reflexivity. }
      assert (Hrdy' : SyncFIFOBuffered.r_rdy (fifo (tick max_packet_size s i))
                      = true).
      { rewrite Hfifo, r_rdy_tick. unfold SyncFIFOBuffered.inner_r_rdy.
        rewrite <- Hstorage. reflexivity. }
      assert (Hfirst' : tx_first (tick max_packet_size s i) = false).
      { unfold tick; cbn [tx_first]. unfold fsm_tick.
        rewrite Hfsm, Hready. reflexivity. }
      destruct (IH ins (tick max_packet_size s i) false
                  Hfsm' Hc' Hrdy' Hbytes' ltac:(cbn [length] in *; lia)
                  Hfirst' Hrest Hlen) as (Hsent & Hend & Hempty).
      rewrite Hsent. cbn [packet_beats]. repeat split; assumption.
Qed.

(** X6: a primed packet goes out whole.  From PRIMED with the FIFO
    readable, a matching IN token on a non-stalled endpoint, followed by as
    many ticks in which the link layer takes a byte as the FIFO holds bytes,
    sends exactly the queued bytes in order, [first] on the first one and
    [last] on the final one only, and leaves the manager in IDLE with an
    empty FIFO. *)
Theorem in_packet_transmitted (s : State) (i0 : Inputs) (ins : list Inputs) :
  reachable max_packet_size s ->
  fsm s = PRIMED ->
  SyncFIFOBuffered.r_rdy (fifo s) = true ->
  new_in_token i0 = true ->
  endpoint_matches s i0 = true ->
  stalled s i0 = false ->
  data_w_stb i0 = false /\ reset_w_stb i0 = false ->
  Forall takes ins ->
  length ins = length (SyncFIFOBuffered.contents (fifo s)) ->
  let s1 := tick max_packet_size s i0 in
  sent max_packet_size s1 ins
    = packet_beats true (SyncFIFOBuffered.contents (fifo s))
  /\ fsm (run max_packet_size s1 ins) = IDLE
  /\ SyncFIFOBuffered.contents (fifo (run max_packet_size s1 ins)) = [].
Proof.
  intros Hreach Hfsm Hrdy Htoken Hmatch Hfree (Hnowrite & Hnoreset)
    Htakes Hlen s1.
  destruct (in_counter_invariant s Hreach) as [Hbytes Hbound].
  assert (Hquiet : fifo_r_en (comb s i0) = false).
  { unfold comb. rewrite Hfsm, Htoken, Hfree, Hmatch. reflexivity. }
  assert (Hfifo : fifo s1
                  = SyncFIFOBuffered.tick max_packet_size (fifo s) false
                      false (trunc 8 (data_w_data i0)) false).
  { unfold s1. rewrite in_fifo_tick, Hquiet, Hnoreset, Hnowrite.
    reflexivity. }
  assert (Hnext : fsm_tick s i0 = (SEND_DATA, true)).
  { unfold fsm_tick. rewrite Hfsm, Htoken, Hfree, Hmatch, Hrdy.
    reflexivity. }
  apply in_send_data_loop.
  - unfold s1, tick; cbn [fsm]. rewrite Hnext. reflexivity.
  - rewrite Hfifo, contents_tick. cbn [andb]. apply app_nil_r.
  - rewrite Hfifo, r_rdy_tick, Hrdy. cbn. apply orb_true_r.
  - unfold s1, tick; cbn [bytes_in_fifo]. unfold next_bytes_in_fifo.
    cbn [fifo_w_en status]. rewrite Hquiet, Hnoreset, Hnowrite.
    cbn [andb negb]. exact Hbytes.
  - lia.
  - unfold s1, tick; cbn [tx_first]. rewrite Hnext. reflexivity.
  - exact Htakes.
  - exact Hlen.
Qed.

End InTransmission.

Section InPolling.
Import InFIFOInterface InObservations.

Variable max_packet_size : Z.

(** X7: data that was written but not primed never goes out.  From IDLE,
    over any run of ticks without a write to [epno], the manager stays in
    IDLE and puts nothing on the transmit stream, whatever tokens arrive
    and whatever the FIFO holds. *)
Theorem in_unprimed_never_transmits (ins : list Inputs) (s : State) :
  fsm s = IDLE ->
  Forall (fun i => epno_w_stb i = false) ins ->
  fsm (run max_packet_size s ins) = IDLE
  /\ sent max_packet_size s ins = [].
Proof.
  intros Hfsm Hall. revert s Hfsm.
  induction Hall as [| i rest Hi Hrest IH]; intros s Hfsm.
  - split; [exact Hfsm | reflexivity].
  - assert (Hnext : fsm (tick max_packet_size s i) = IDLE).
    { unfold tick; cbn [fsm]. unfold fsm_tick. rewrite Hfsm, Hi.
      reflexivity. }
    destruct (IH _ Hnext) as [Hend Hsent].
    cbn [run sent]. rewrite Hsent. split; [exact Hend |].
    unfold comb. rewrite Hfsm.
    destruct (new_in_token i); [destruct (stalled s i) |]; reflexivity.
Qed.

(** X8: a primed packet survives the polling of other endpoints.  From
    PRIMED, over any run of ticks none of which is an IN token for the
    primed endpoint and in which the controller leaves [epno] and the FIFO
    alone, the manager stays PRIMED for the same endpoint, sends nothing and
    keeps the queued bytes and their count. *)
Theorem in_primed_packet_survives_polling (ins : list Inputs) (s : State) :
  fsm s = PRIMED ->
  Forall (polls_elsewhere (epno_r_data s)) ins ->
  fsm (run max_packet_size s ins) = PRIMED
  /\ epno_r_data (run max_packet_size s ins) = epno_r_data s
  /\ SyncFIFOBuffered.contents (fifo (run max_packet_size s ins))
     = SyncFIFOBuffered.contents (fifo s)
  /\ bytes_in_fifo (run max_packet_size s ins) = bytes_in_fifo s
  /\ sent max_packet_size s ins = [].
Proof.
  intros Hfsm Hall. revert Hfsm. remember (epno_r_data s) as ep eqn:Hep.
  revert s Hep.
  induction Hall as [| i rest (Helse & Hepno & Hdata & Hreset) Hrest IH];
    intros s Hep Hfsm.
  - repeat split; [exact Hfsm | symmetry; exact Hep].
  - assert (Hskip : new_in_token i && negb (stalled s i)
                    && endpoint_matches s i = false).
    { destruct Helse as [-> | Hne]; [reflexivity |].
      unfold endpoint_matches. rewrite <- Hep.
      replace (trunc 4 (endpoint (tokenizer i)) =? ep) with false
        by (symmetry; apply Z.eqb_neq; exact Hne).
      apply andb_false_r. }
    assert (Hquiet : fifo_r_en (comb s i) = false
                     /\ tx_valid (comb s i) = false).
    { unfold comb. rewrite Hfsm.
      destruct (new_in_token i); [| split; reflexivity].
      destruct (stalled s i); [split; reflexivity |].
      destruct (endpoint_matches s i); split; reflexivity. }
    destruct Hquiet as [Hren Hvalid].
    assert (Hnext : fsm (tick max_packet_size s i) = PRIMED).
    { unfold tick; cbn [fsm]. unfold fsm_tick. rewrite Hfsm.
      destruct (new_in_token i); [| reflexivity].
      destruct (stalled s i); [reflexivity |].
      destruct (endpoint_matches s i); [discriminate | reflexivity]. }
    assert (Hep' : ep = epno_r_data (tick max_packet_size s i)).
    { unfold tick; cbn [epno_r_data]. rewrite Hepno. exact Hep. }
    destruct (IH _ Hep' Hnext) as (Hend & Hsame & Hfifo & Hcount & Hsent).
    cbn [run sent]. rewrite Hend, Hsame, Hfifo, Hcount, Hsent, Hvalid.
    repeat split.
    + unfold tick; cbn [fifo]. rewrite Hren. cbn [fifo_w_en status].
      rewrite Hreset, Hdata, contents_tick. cbn [andb]. apply app_nil_r.
    + unfold tick; cbn [bytes_in_fifo]. unfold next_bytes_in_fifo.
      cbn [fifo_w_en status]. rewrite Hren, Hreset, Hdata. reflexivity.
Qed.

(** X9: the data toggle is the controller's alone: over any run of ticks
    without a write to the [pid] CSR it keeps its value, whatever is sent
    or answered meanwhile. *)
Theorem in_toggle_only_by_controller (ins : list Inputs) (s : State) :
  Forall (fun i => pid_w_stb i = false) ins ->
  pid_r_data (run max_packet_size s ins) = pid_r_data s
  /\ forall i' : Inputs,
       tx_pid_toggle (status (run max_packet_size s ins) i') = pid_r_data s.
Proof.
  intros Hall.
  assert (Hkeep : pid_r_data (run max_packet_size s ins) = pid_r_data s).
  { revert s. induction Hall as [| i rest Hi Hrest IH]; intros s;
      [reflexivity |].
    cbn [run]. rewrite IH. unfold tick; cbn [pid_r_data]. rewrite Hi.
    reflexivity. }
  split; [exact Hkeep | intros i'; exact Hkeep].
Qed.

(** X10: a new SETUP token clears the stall flag of its endpoint, also
    against a write of '1' to the [stall] CSR in the same tick; an IN token
    for that endpoint is then not answered STALL. *)
Theorem in_setup_clears_stall (s : State) (i i' : Inputs) :
  is_setup (tokenizer i) = true ->
  new_token (tokenizer i) = true ->
  trunc 4 (endpoint (tokenizer i')) = trunc 4 (endpoint (tokenizer i)) ->
  stalled (tick max_packet_size s i) i' = false
  /\ stall (comb (tick max_packet_size s i) i') = false.
Proof.
  intros Hsetup Hnew Hsame.
  assert (Hclear : stalled (tick max_packet_size s i) i' = false).
  { unfold stalled, tick; cbn [endpoint_stalled].
    unfold next_endpoint_stalled. rewrite Hsetup, Hnew. cbn [andb].
    unfold array_get. rewrite Hsame. apply array_get_clear. }
  split; [exact Hclear |].
  unfold comb. rewrite Hclear.
  destruct (fsm (tick max_packet_size s i)), (new_in_token i'),
    (endpoint_matches (tick max_packet_size s i) i'); reflexivity.
Qed.

(** X11: the handshakes of the IN manager exclude each other and the
    transmit stream: STALL and NAK are never driven together, neither is
    driven while data is on the transmit stream, and none is driven unless
    an IN token is ready for its response. *)
Theorem in_handshakes_exclusive (s : State) (i : Inputs) :
  stall (comb s i) && nak (comb s i) = false
  /\ (stall (comb s i) || nak (comb s i)) && tx_valid (comb s i) = false
  /\ (new_in_token i = false ->
      stall (comb s i) = false /\ nak (comb s i) = false).
Proof.
  unfold comb.
  destruct (fsm s), (new_in_token i), (stalled s i), (endpoint_matches s i);
    cbn; repeat split; intros; try reflexivity; discriminate.
Qed.

(** X12: the [reset] CSR discards a primed packet without leaving PRIMED.
    A write to it empties the FIFO and zeroes the byte counter; if the
    manager was primed and no IN token is due in that tick, the next
    matching IN token on a non-stalled endpoint is answered with a
    zero-length packet. *)
Theorem in_reset_discards_primed_packet (s : State) (i i' : Inputs) :
  fsm s = PRIMED ->
  reset_w_stb i = true ->
  new_in_token i = false ->
  new_in_token i' = true ->
  endpoint_matches (tick max_packet_size s i) i' = true ->
  stalled (tick max_packet_size s i) i' = false ->
  SyncFIFOBuffered.contents (fifo (tick max_packet_size s i)) = []
  /\ bytes_in_fifo (tick max_packet_size s i) = 0
  /\ fsm (tick max_packet_size s i) = PRIMED
  /\ fsm (tick max_packet_size (tick max_packet_size s i) i') = SEND_ZLP.
Proof.
  intros Hfsm Hreset Hnotoken Htoken Hmatch Hfree.
  assert (Hprimed : fsm (tick max_packet_size s i) = PRIMED).
  { unfold tick; cbn [fsm]. unfold fsm_tick. rewrite Hfsm, Hnotoken.
    reflexivity. }
  assert (Hoff : SyncFIFOBuffered.r_rdy (fifo (tick max_packet_size s i))
                 = false).
  { unfold tick; cbn [fifo]. unfold SyncFIFOBuffered.tick. rewrite Hreset.
    reflexivity. }
  repeat split.
  - unfold tick; cbn [fifo]. rewrite Hreset. apply contents_reset.
  - unfold tick; cbn [bytes_in_fifo]. unfold next_bytes_in_fifo.
    rewrite Hreset. reflexivity.
  - exact Hprimed.
  - unfold tick at 1; cbn [fsm]. unfold fsm_tick.
    rewrite Hprimed, Htoken, Hfree, Hmatch, Hoff. reflexivity.
Qed.

End InPolling.

(** ** OUT transaction manager: handshakes, reception, stall table *)
Section OutReception.
Import OutFIFOInterface OutObservations.

Lemma out_run_app (a b : list Inputs) (s : State) :
  run s (a ++ b) = run (run s a) b.
Proof. revert s. induction a as [| i a IH]; intros s; [reflexivity | apply IH]. Qed.

Lemma out_fifo_tick (s : State) (i : Inputs) :
  fifo (tick s i)
  = SyncFIFOBuffered.tick 10 (fifo s) (reset_w_stb i)
      (allow_receive s i && rx_valid i && rx_next i)
      (trunc 8 (rx_payload i)) (data_r_stb i).
Proof. reflexivity. Qed.

(** X13: when the handshake of an OUT token is due, the manager drives
    exactly one of ACK, STALL and NAK; at any other time it drives none. *)
Theorem out_exactly_one_handshake (s : State) (i : Inputs) :
  (is_out (tokenizer i) = true -> rx_ready_for_response i = true ->
   (ack (comb s i), stall (comb s i), nak (comb s i)) = (true, false, false)
   \/ (ack (comb s i), stall (comb s i), nak (comb s i))
      = (false, true, false)
   \/ (ack (comb s i), stall (comb s i), nak (comb s i))
      = (false, false, true))
  /\ (is_out (tokenizer i) = false \/ rx_ready_for_response i = false ->
      (ack (comb s i), stall (comb s i), nak (comb s i))
      = (false, false, false)).
Proof.
  unfold comb, nak_receives, allow_receive, stalled; cbn.
  destruct (is_out (tokenizer i)), (rx_ready_for_response i),
    (endpoint_matches s i), (enable_r_data s),
    (array_get (endpoint_stalled s) (endpoint (tokenizer i)));
    cbn; split; intros; intuition (try discriminate; auto).
Qed.

(** X14: STALL beats an armed receive.  An OUT token for a stalled
    endpoint is answered STALL even when that endpoint is selected and
    armed; nothing is buffered, and the arming is not used up. *)
Theorem out_stall_beats_arm (s : State) (i : Inputs) :
  is_out (tokenizer i) = true ->
  array_get (endpoint_stalled s) (endpoint (tokenizer i)) = true ->
  fifo_w_en (comb s i) = false
  /\ (rx_ready_for_response i = true ->
      stall (comb s i) = true /\ ack (comb s i) = false
      /\ nak (comb s i) = false)
  /\ (enable_w_stb i = false ->
      enable_r_data (tick s i) = enable_r_data s).
Proof.
  intros Hout Hstalled.
  assert (Hst : stalled s i = true)
    by (unfold stalled; rewrite Hout, Hstalled; reflexivity).
  assert (Hallow : allow_receive s i = false)
    by (unfold allow_receive; rewrite Hst; apply andb_false_r).
  split; [| split].
  - cbn. rewrite Hallow. reflexivity.
  - intros Hresp. unfold comb, nak_receives; cbn.
    rewrite Hallow, Hst, Hout, Hresp. repeat split.
  - intros Hnoarm. unfold tick, next_enable; cbn.
    rewrite Hallow, Hnoarm. reflexivity.
Qed.

(** While the bytes of a packet for the selected, armed, non-stalled
    endpoint arrive, they are queued and the manager stays armed. *)
Lemma out_receive_appends (e : Z) (bytes : list Z) (ins : list Inputs) :
  Forall2 (delivers e) bytes ins ->
  forall s : State,
    enable_r_data s = true ->
    epno_r_data s = trunc 4 e ->
    array_get (endpoint_stalled s) e = false ->
    Z.of_nat (length (SyncFIFOBuffered.contents (fifo s)) + length bytes) <= 9 ->
    SyncFIFOBuffered.contents (fifo (run s ins))
      = SyncFIFOBuffered.contents (fifo s) ++ map (trunc 8) bytes
    /\ enable_r_data (run s ins) = true
    /\ epno_r_data (run s ins) = trunc 4 e
    /\ array_get (endpoint_stalled (run s ins)) e = false.
Proof.
  induction 1 as [| x i bytes ins Hx Hrest IH];
    intros s Harmed Hsel Hfree Hroom.
  - cbn. rewrite app_nil_r. repeat split; assumption.
  - destruct Hx as ((Hout & Hep & Hnosetup) & Hvalid & Hnext & Hpayload
                    & Hnoresp & Hnoread & Hnoreset & Hnoepno & Hnoarm
                    & Hnostall).
    assert (Hfree' : array_get (endpoint_stalled s) (endpoint (tokenizer i))
                     = false).
    { unfold array_get in *. rewrite Hep. exact Hfree. }
    assert (Hallow : allow_receive s i = true).
    { unfold allow_receive, stalled, endpoint_matches.
      rewrite Hep, Hsel, Z.eqb_refl, Harmed, Hout, Hfree'. reflexivity. }
    assert (Harmed' : enable_r_data (tick s i) = true).
    { unfold tick, next_enable; cbn. rewrite Hallow, Hnoresp, Hnoarm.
      exact Harmed. }
    assert (Hsel' : epno_r_data (tick s i) = trunc 4 e)
      by (unfold tick; cbn; rewrite Hnoepno; exact Hsel).
    assert (Hstall' : array_get (endpoint_stalled (tick s i)) e = false).
    { unfold tick; cbn [endpoint_stalled]. unfold next_endpoint_stalled.
      rewrite Hnostall, Hnosetup. exact Hfree. }
    assert (Hstep : SyncFIFOBuffered.contents (fifo (tick s i))
                    = SyncFIFOBuffered.contents (fifo s) ++ [trunc 8 x]).
    { rewrite out_fifo_tick, Hallow, Hvalid, Hnext, Hnoreset, Hnoread.
      cbn [andb]. rewrite contents_tick. cbn [andb].
      rewrite w_rdy_room by (cbn [length] in Hroom; lia).
      rewrite trunc_idem, Hpayload. reflexivity. }
    cbn [run length map] in *.
    destruct (IH (tick s i) Harmed' Hsel' Hstall') as (Hc & Ha & He & Hs).
    { rewrite Hstep, length_app. cbn [length]. lia. }
    rewrite Hc, Hstep, <- app_assoc. repeat split; assumption.
Qed.

(** X15: an armed endpoint receives one packet.  With endpoint [e]
    selected, armed and not stalled, the bytes of an OUT data phase on [e]
    (as long as the FIFO has room) are queued in order behind what the FIFO
    held; when the handshake is due the packet is ACK'd, and the tick after
    the manager is disarmed with the bytes still queued. *)
Theorem out_packet_received
    (s : State) (e : Z) (bytes : list Z) (ins : list Inputs) (r : Inputs) :
  enable_r_data s = true ->
  epno_r_data s = trunc 4 e ->
  array_get (endpoint_stalled s) e = false ->
  Forall2 (delivers e) bytes ins ->
  Z.of_nat (length (SyncFIFOBuffered.contents (fifo s)) + length bytes) <= 9 ->
  response_due e r ->
  ack (comb (run s ins) r) = true
  /\ enable_r_data (tick (run s ins) r) = false
  /\ SyncFIFOBuffered.contents (fifo (tick (run s ins) r))
     = SyncFIFOBuffered.contents (fifo s) ++ map (trunc 8) bytes.
Proof.
  intros Harmed Hsel Hfree Hdata Hroom
    ((Hout & Hep & Hnosetup) & Hsilent & Hresp & Hnoread & Hnoreset & _).
  destruct (out_receive_appends e bytes ins Hdata s Harmed Hsel Hfree Hroom)
    as (Hc & Ha & He & Hs).
  set (s1 := run s ins) in *. clearbody s1.
  assert (Hallow : allow_receive s1 r = true).
  { unfold allow_receive, stalled, endpoint_matches, array_get in *.
    rewrite Hep, He, Z.eqb_refl, Ha, Hout, Hs. reflexivity. }
  assert (Hack : ack (comb s1 r) = true)
    by (cbn; rewrite Hallow, Hresp; reflexivity).
  split; [exact Hack |]. split.
  - unfold tick, next_enable; cbn [enable_r_data]. rewrite Hack. reflexivity.
  - rewrite out_fifo_tick, Hnoreset, Hsilent, Hnoread, andb_false_r.
    cbn [andb]. rewrite contents_tick. cbn [andb]. rewrite app_nil_r.
    exact Hc.
Qed.

End OutReception.

Section OutReadOut.
Import OutFIFOInterface OutObservations.

(** Reading the [data] CSR walks through the queue. *)
Lemma out_read_out_takes (ins : list Inputs) :
  Forall reads ins ->
  forall s : State,
    presented (fifo s) ->
    read_out s ins
    = take (length ins) (SyncFIFOBuffered.contents (fifo s))
    /\ SyncFIFOBuffered.contents (fifo (run s ins))
       = drop (length ins) (SyncFIFOBuffered.contents (fifo s)).
Proof.
  induction 1 as [| i ins (Hread & Hnoreset & Hsilent) Hrest IH];
    intros s Hpres.
  - cbn. rewrite drop_0. split; reflexivity.
  - assert (Hfifo : fifo (tick s i)
                    = SyncFIFOBuffered.tick 10 (fifo s) false false
                        (trunc 8 (rx_payload i)) true).
    { rewrite out_fifo_tick, Hnoreset, Hsilent, Hread, andb_false_r.
      reflexivity. }
    assert (Hpres' : presented (fifo (tick s i)))
      by (rewrite Hfifo; apply presented_after_quiet_tick).
    destruct (IH (tick s i) Hpres') as (Hout & Hleft).
    cbn [run read_out length]. rewrite Hout, Hleft, Hfifo, contents_tick.
    cbn [andb]. rewrite app_nil_r.
    cbn [comb have_r_data data_r_data]. rewrite Hread. cbn [andb].
    destruct (SyncFIFOBuffered.contents (fifo s)) as [| x c] eqn:Hc.
    + assert (Hoff : SyncFIFOBuffered.r_rdy (fifo s) = false).
      { unfold SyncFIFOBuffered.contents in Hc.
        destruct (SyncFIFOBuffered.r_rdy (fifo s)); [discriminate | reflexivity]. }
      rewrite Hoff. cbn. rewrite take_nil, drop_nil. split; reflexivity.
    + assert (Hon : SyncFIFOBuffered.r_rdy (fifo s) = true)
        by (apply Hpres; rewrite Hc; discriminate).
      rewrite Hon. cbn [tail app].
      pose proof (r_data_head (fifo s) Hon) as Hhead.
      rewrite Hc in Hhead. injection Hhead as -> _.
      cbn. split; reflexivity.
Qed.

(** X16: round trip of an OUT packet.  After an armed reception into an
    empty FIFO and its ACK, as many reads of the [data] CSR as bytes were
    received return those bytes in order, each cut to eight bits, and the
    data-available flag is low afterwards. *)
Theorem out_packet_round_trip
    (s : State) (e : Z) (bytes : list Z) (ins reads_ : list Inputs)
    (r : Inputs) :
  enable_r_data s = true ->
  epno_r_data s = trunc 4 e ->
  array_get (endpoint_stalled s) e = false ->
  SyncFIFOBuffered.contents (fifo s) = [] ->
  Forall2 (delivers e) bytes ins ->
  (length bytes <= 9)%nat ->
  response_due e r ->
  Forall reads reads_ ->
  length reads_ = length bytes ->
  let s2 := tick (run s ins) r in
  read_out s2 reads_ = map (trunc 8) bytes
  /\ forall i' : Inputs, have_r_data (comb (run s2 reads_) i') = false.
Proof.
  intros Harmed Hsel Hfree Hempty Hdata Hlen Hresp Hreads Hcount s2.
  assert (Hroom : Z.of_nat (length (SyncFIFOBuffered.contents (fifo s))
                            + length bytes) <= 9)
    by (rewrite Hempty; cbn [length]; lia).
  destruct (out_receive_appends e bytes ins Hdata s Harmed Hsel Hfree Hroom)
    as (Hc & _).
  destruct Hresp as (_ & Hsilent & _ & Hnoread & Hnoreset & _).
  assert (Hfifo : fifo s2
                  = SyncFIFOBuffered.tick 10 (fifo (run s ins)) false false
                      (trunc 8 (rx_payload r)) false).
  { unfold s2. rewrite out_fifo_tick, Hnoreset, Hsilent, Hnoread,
      andb_false_r. reflexivity. }
  assert (Hpres : presented (fifo s2))
    by (rewrite Hfifo; apply presented_after_quiet_tick).
  assert (Hheld : SyncFIFOBuffered.contents (fifo s2) = map (trunc 8) bytes).
  { rewrite Hfifo, contents_tick. cbn [andb]. rewrite app_nil_r, Hc, Hempty.
    reflexivity. }
  destruct (out_read_out_takes reads_ Hreads s2 Hpres) as (Hout & Hleft).
  clearbody s2. split.
  - rewrite Hout, Hheld, Hcount.
    rewrite <- (length_map (trunc 8) bytes). apply firstn_all.
  - intros i'. cbn [comb have_r_data].
    rewrite Hheld, Hcount in Hleft.
    rewrite <- (length_map (trunc 8) bytes), drop_all in Hleft.
    unfold SyncFIFOBuffered.contents in Hleft.
    destruct (SyncFIFOBuffered.r_rdy (fifo (run s2 reads_)));
      [discriminate | reflexivity].
Qed.

(** X17: stall flags persist when [epno] changes.  Over any run of ticks
    without a write to the [stall] CSR and without a new SETUP token for
    endpoint [e], the stall flag of [e] keeps its value, whatever is written
    to [epno] meanwhile; if it is set, an OUT token for [e] is answered
    STALL afterwards. *)
Theorem out_stall_persists (e : Z) (ins : list Inputs) (s : State) :
  Forall (keeps_stall e) ins ->
  array_get (endpoint_stalled (run s ins)) e
    = array_get (endpoint_stalled s) e
  /\ (array_get (endpoint_stalled s) e = true ->
      forall i' : Inputs,
        is_out (tokenizer i') = true ->
        trunc 4 (endpoint (tokenizer i')) = trunc 4 e ->
        rx_ready_for_response i' = true ->
        stall (comb (run s ins) i') = true).
Proof.
  intros Hall.
  assert (Hkeep : array_get (endpoint_stalled (run s ins)) e
                  = array_get (endpoint_stalled s) e).
  { revert s. induction Hall as [| i rest (Hnowrite & Hnoclear) Hrest IH];
      intros s; [reflexivity |].
    cbn [run]. rewrite IH. unfold tick; cbn [endpoint_stalled].
    unfold next_endpoint_stalled. rewrite Hnowrite.
    destruct Hnoclear as [-> | Hother]; [reflexivity |].
    destruct (is_setup (tokenizer i) && new_token (tokenizer i));
      [| reflexivity].
    apply array_get_set_ne. exact Hother. }
  split; [exact Hkeep |].
  intros Hset i' Hout Hep Hresp.
  cbn. unfold stalled. rewrite Hout, Hresp.
  replace (array_get (endpoint_stalled (run s ins)) (endpoint (tokenizer i')))
    with (array_get (endpoint_stalled (run s ins)) e)
    by (unfold array_get; rewrite Hep; reflexivity).
  rewrite Hkeep, Hset. reflexivity.
Qed.

(** X18: the [stall] CSR sets or clears the flag of the selected endpoint
    and of no other.  On a sixteen-entry table, and unless a new SETUP
    token clears a flag in the same tick, a write of [v] makes the flag of
    the endpoint in [epno] read [v] and leaves every other flag as it was. *)
Theorem out_stall_write_read (s : State) (i : Inputs) :
  length (endpoint_stalled s) = 16%nat ->
  stall_w_stb i = true ->
  is_setup (tokenizer i) && new_token (tokenizer i) = false ->
  array_get (endpoint_stalled (tick s i)) (epno_r_data s) = stall_w_data i
  /\ (forall e' : Z,
        trunc 4 e' <> trunc 4 (epno_r_data s) ->
        array_get (endpoint_stalled (tick s i)) e'
          = array_get (endpoint_stalled s) e')
  /\ length (endpoint_stalled (tick s i)) = 16%nat.
Proof.
  intros Hlen Hwrite Hnosetup.
  unfold tick; cbn [endpoint_stalled]. unfold next_endpoint_stalled.
  rewrite Hwrite, Hnosetup. split; [| split].
  - apply array_get_set_eq. exact Hlen.
  - intros e' Hne. apply array_get_set_ne. congruence.
  - rewrite array_set_length. exact Hlen.
Qed.

End OutReadOut.

(** ** Streaming OUT endpoint: framing bits, PING, duplicates *)
Section StreamOutFraming.
Import USBStreamOutEndpoint.

Variable cfg : Config.

Lemma pack_bits (payload : Z) (last first : bool) :
  trunc 8 (pack payload last first) = trunc 8 payload
  /\ Z.testbit (pack payload last first) 8 = last
  /\ Z.testbit (pack payload last first) 9 = first.
Proof.
  unfold pack, trunc.
  set (k := Z.lor (Z.shiftl (Z.b2z last) 8) (Z.shiftl (Z.b2z first) 9)).
  assert (Hk : Z.land k (Z.ones 8) = 0
               /\ Z.testbit k 8 = last /\ Z.testbit k 9 = first)
    by (subst k; destruct last, first; repeat split).
  destruct Hk as (Hlow & Hbit8 & Hbit9). split; [| split].
  - rewrite Z.land_lor_distr_l, Hlow, Z.lor_0_r, <- Z.land_assoc, Z.land_diag.
    reflexivity.
  - rewrite Z.lor_spec, Z.land_spec, Hbit8.
    change (Z.testbit (Z.ones 8) 8) with false.
    rewrite andb_false_r. reflexivity.
  - rewrite Z.lor_spec, Z.land_spec, Hbit9.
    change (Z.testbit (Z.ones 8) 9) with false.
    rewrite andb_false_r. reflexivity.
Qed.

(** X19: the framing bits survive the FIFO element.  When the element at
    the head of the visible FIFO was packed from a payload and its [last]
    and [first] markers, the output stream is valid and carries that
    payload (eight bits) and exactly those markers. *)
Theorem stream_out_unpacks_element
    (s : State) (i : Inputs) (payload : Z) (last first : bool)
    (rest : list Z) :
  TransactionalizedFIFO.visible (fifo s) = pack payload last first :: rest ->
  stream_valid (comb cfg s i) = true
  /\ stream_payload (comb cfg s i) = trunc 8 payload
  /\ stream_last (comb cfg s i) = last
  /\ stream_first (comb cfg s i) = first.
Proof.
  intros Hhead. cbn.
  unfold TransactionalizedFIFO.empty, TransactionalizedFIFO.read_data.
  rewrite Hhead. cbn [hd negb].
  destruct (pack_bits payload last first) as (Hp & Hl & Hf).
  repeat split; assumption.
Qed.

(** X20: a PING token that the token detector does not also flag as OUT
    is never ACK'd: [okay_to_receive] requires [is_out], so when the PING's
    response is due for this endpoint the answer is NAK, however much space
    the FIFO has and whatever the data toggle. *)
Theorem stream_out_ping_is_nakked (s : State) (i : Inputs) :
  is_ping (tokenizer i) = true ->
  is_out (tokenizer i) = false ->
  ack (comb cfg s i) = false
  /\ (endpoint_number_matches cfg i = true ->
      ready_for_response (tokenizer i) = true ->
      nak (comb cfg s i) = true).
Proof.
  intros Hping Hout.
  assert (Htarget : targeting_endpoint cfg i = false)
    by (unfold targeting_endpoint; rewrite Hout; apply andb_false_r).
  cbn. unfold okay_to_receive, should_skip, data_response_requested,
    ping_response_requested.
  rewrite Htarget, Hping, Hout. cbn. rewrite !andb_false_r. cbn.
  split; [reflexivity |]. intros -> ->. reflexivity.
Qed.

(** X21: handshakes of the streaming OUT endpoint.  It drives nothing
    unless a response is requested; for a token that is not both OUT and
    PING it never drives ACK and NAK together; and when the response to an
    OUT data token for the endpoint is due it drives exactly one of the
    two. *)
Theorem stream_out_handshakes (s : State) (i : Inputs) :
  (rx_ready_for_response i = false ->
   ready_for_response (tokenizer i) = false ->
   ack (comb cfg s i) = false /\ nak (comb cfg s i) = false)
  /\ (is_out (tokenizer i) && is_ping (tokenizer i) = false ->
      ack (comb cfg s i) && nak (comb cfg s i) = false)
  /\ (data_response_requested cfg i = true ->
      is_ping (tokenizer i) = false ->
      ack (comb cfg s i) = negb (nak (comb cfg s i))).
Proof.
  cbn. unfold data_response_requested, ping_response_requested,
    okay_to_receive, should_skip, targeting_endpoint.
  destruct (endpoint_number_matches cfg i), (is_out (tokenizer i)),
    (is_ping (tokenizer i)), (rx_ready_for_response i),
    (ready_for_response (tokenizer i)), (sufficient_space cfg s),
    (expected_pid_match s i);
    cbn; repeat split; intros; try reflexivity; discriminate.
Qed.

(** X22: what is not addressed to the endpoint leaves it untouched.  Over
    any run of ticks whose token is for another endpoint or is not OUT, and
    in which the consumer does not take data, no handshake is driven and
    every register and the whole FIFO stay as they are. *)
Theorem stream_out_ignores_other_traffic (ins : list Inputs) (s : State) :
  Forall (fun i => targeting_endpoint cfg i = false
                   /\ ping_response_requested cfg i = false
                   /\ stream_ready i = false) ins ->
  run cfg s ins = s
  /\ Forall (fun io : Inputs * Outputs =>
               ack (snd io) = false /\ nak (snd io) = false
               /\ fifo_write_en (snd io) = false)
            (trace cfg s ins).
Proof.
  intros Hall. revert s.
  induction Hall as [| i rest (Htarget & Hping & Hidle) Hrest IH]; intros s.
  - split; [reflexivity | constructor].
  - assert (Hstay : tick cfg s i = s).
    { unfold tick, comb, okay_to_receive, data_response_requested.
      cbn. rewrite Htarget, Hidle. cbn. rewrite andb_false_r.
      destruct s as [fb tg [vis fl]]. reflexivity. }
    cbn [run trace]. rewrite Hstay.
    destruct (IH s) as [Hrun Htrace]. split; [exact Hrun |].
    constructor; [| exact Htrace].
    cbn. unfold okay_to_receive, should_skip, data_response_requested.
    rewrite Htarget, Hping. repeat split.
Qed.

(** X23: an accepted packet is recognised when it comes again.  When the
    response to an OUT data packet is due and the packet was accepted, ACK
    is driven and the expected toggle becomes the opposite of the packet's
    toggle; the same packet sent once more is then skipped: not written,
    and ACK'd again. *)
Theorem stream_out_accept_then_duplicate (s : State) (i : Inputs) :
  okay_to_receive cfg s i = true ->
  rx_ready_for_response i = true ->
  let s' := tick cfg s i in
  ack (comb cfg s i) = true
  /\ expected_data_toggle s' = negb (rx_pid_toggle i)
  /\ should_skip cfg s' i = true
  /\ fifo_write_en (comb cfg s' i) = false
  /\ ack (comb cfg s' i) = true
  /\ expected_data_toggle (tick cfg s' i) = expected_data_toggle s'.
Proof.
  intros Hokay Hresp s'.
  assert (Hparts : targeting_endpoint cfg i = true
                   /\ expected_pid_match s i = true).
  { unfold okay_to_receive in Hokay.
    destruct (targeting_endpoint cfg i), (sufficient_space cfg s),
      (expected_pid_match s i); try discriminate. split; reflexivity. }
  destruct Hparts as [Htarget Hmatch].
  assert (Hout : is_out (tokenizer i) = true).
  { unfold targeting_endpoint in Htarget.
    destruct (endpoint_number_matches cfg i), (is_out (tokenizer i));
      try discriminate. reflexivity. }
  assert (Hdrr : data_response_requested cfg i = true)
    by (unfold data_response_requested; rewrite Htarget, Hout, Hresp;
        reflexivity).
  assert (Htoggle : expected_data_toggle s' = negb (rx_pid_toggle i)).
  { unfold s', tick; cbn [expected_data_toggle]. rewrite Hdrr, Hokay.
    unfold expected_pid_match in Hmatch.
    apply Bool.eqb_prop in Hmatch. rewrite Hmatch. reflexivity. }
  assert (Hmis : expected_pid_match s' i = false).
  { unfold expected_pid_match. rewrite Htoggle.
    destruct (rx_pid_toggle i); reflexivity. }
  assert (Hskip : should_skip cfg s' i = true)
    by (unfold should_skip; rewrite Htarget, Hmis; reflexivity).
  assert (Hno : okay_to_receive cfg s' i = false)
    by (unfold okay_to_receive; rewrite Hmis; apply andb_false_r).
  clearbody s'.
  split; [cbn; rewrite Hdrr, Hokay; reflexivity |].
  split; [exact Htoggle |]. split; [exact Hskip |].
  split; [cbn; rewrite Hno; reflexivity |].
  split; [cbn; rewrite Hdrr, Hskip, Hno; cbn; apply orb_true_r |].
  unfold tick; cbn [expected_data_toggle]. rewrite Hno, andb_false_r.
  reflexivity.
Qed.

End StreamOutFraming.

(** ** The command-line driver *)
Section CliProperties.
Import TopLevelCli.

Variable w : World.

Lemma in_note (e e' : Event) (k : Run) :
  In e (fst (note e' k)) -> e = e' \/ In e (fst k).
Proof. cbn. intros [H | H]; [left; symmetry; exact H | right; exact H]. Qed.

Lemma in_call (e e' : Event) (k : Run) :
  In e (fst (call w e' k)) -> e = e' \/ In e (fst k).
Proof.
  unfold call. destruct (fails w e'); cbn.
  - intros [H | []]. left. symmetry. exact H.
  - intros [H | H]; [left; symmetry; exact H | right; exact H].
Qed.

(** Peel the steps of a run off a membership hypothesis. *)
Ltac peel H :=
  repeat first
    [ apply in_note in H; destruct H as [H | H]; [try discriminate H |]
    | apply in_call in H; destruct H as [H | H]; [try discriminate H |]
    | match type of H with
      | In _ (fst ((if ?c then _ else _) _)) => destruct c
      end ].

(** Every step of the [try] block, by kind. *)
Lemma build_steps_events (a : Args) (dir : string) (e : Event) :
  In e (fst (build_steps w a dir)) ->
  match e with
  | Build b d => b = resolved_upload a /\ d = dir
  | ToolchainErase => resolved_erase a = true
  | ToolchainFlash => flash a = true
  | WriteFile name => output a = Some name /\ name <> EmptyString
  | GetPlatform | LogInfo _ | SilenceUnused false => True
  | _ => False
  end.
Proof.
  unfold build_steps. intros H.
  destruct (resolved_erase a) eqn:He, (flash a) eqn:Hf,
    (truthy (output a)) eqn:Ho;
    peel H; subst; try exact I; try reflexivity; try (split; reflexivity);
    try (cbn in H; contradiction);
    try (destruct (output a) as [[| c name] |]; try discriminate;
         split; [reflexivity | discriminate]).
Qed.

(** How the [try] block can end with a return. *)
Lemma build_steps_returns (a : Args) (dir : string) (f : bool) :
  snd (build_steps w a dir) = Returns f ->
  f = (resolved_upload a || flash a)
  /\ In (Build (resolved_upload a) dir) (fst (build_steps w a dir))
  /\ (flash a = true -> In ToolchainFlash (fst (build_steps w a dir))).
Proof.
  unfold build_steps, call, note.
  generalize (resolved_upload a) as up. intros up.
  destruct (fails w GetPlatform), (resolved_erase a),
    (fails w ToolchainErase), (fails w (Build up dir)), (flash a),
    (fails w ToolchainFlash), (truthy (output a));
    cbn [fst snd];
    try discriminate;
    try (destruct (fails w (WriteFile _)); cbn [fst snd]; try discriminate);
    intros [= <-]; (split; [reflexivity |]); split;
    cbn [In]; intros; try discriminate; tauto.
Qed.

(** Every call the driver makes, by kind. *)
Lemma cli_events (cli_soc callable : bool) (a : Args) (e : Event) :
  In e (fst (top_level_cli w cli_soc callable a)) ->
  match e with
  | Build b d =>
      b = resolved_upload a
      /\ d = (if keep_files a then "build"%string else tempdir w)
  | ToolchainErase => resolved_erase a = true
  | ToolchainFlash => flash a = true
  | WriteFile name => output a = Some name /\ name <> EmptyString
  | RemoveTree d => keep_files a = false /\ d = tempdir w
  | MakeTempDir => keep_files a = false
  | GenerateCHeader => cli_soc && generate_c_header a = true
  | GenerateLdScript =>
      cli_soc && generate_ld_script a = true
      /\ cli_soc && generate_c_header a = false
  | CallFragment | FragmentName => callable = true
  | GetPlatform | LogInfo _ | SilenceUnused false =>
      cli_soc && generate_c_header a = false
      /\ cli_soc && generate_ld_script a = false
  | SilenceUnused true | ConfigureLogging _ => True
  end.
Proof.
  unfold top_level_cli, try_finally.
  remember (build_steps w a "build") as kept eqn:Hkept.
  remember (build_steps w a (tempdir w)) as temp eqn:Htemp.
  intros H.
  assert (Hbody : forall dir,
             In e (fst (build_steps w a dir)) ->
             dir = (if keep_files a then "build"%string else tempdir w) ->
             cli_soc && generate_c_header a = false ->
             cli_soc && generate_ld_script a = false ->
             match e with
             | Build b d =>
                 b = resolved_upload a
                 /\ d = (if keep_files a then "build"%string else tempdir w)
             | ToolchainErase => resolved_erase a = true
             | ToolchainFlash => flash a = true
             | WriteFile name => output a = Some name /\ name <> EmptyString
             | RemoveTree d => keep_files a = false /\ d = tempdir w
             | MakeTempDir => keep_files a = false
             | GenerateCHeader => cli_soc && generate_c_header a = true
             | GenerateLdScript =>
                 cli_soc && generate_ld_script a = true
                 /\ cli_soc && generate_c_header a = false
             | CallFragment | FragmentName => callable = true
             | GetPlatform | LogInfo _ | SilenceUnused false =>
                 cli_soc && generate_c_header a = false
                 /\ cli_soc && generate_ld_script a = false
             | SilenceUnused true | ConfigureLogging _ => True
             end).
  { intros dir Hin Hdir Hc Hl.
    pose proof (build_steps_events a dir e Hin) as Hb.
    destruct e as [| [] | | | | | | | | | | | |]; try contradiction;
      try exact Hb; try (split; assumption).
    destruct Hb as [-> ->]. split; [reflexivity | exact Hdir]. }
  destruct (cli_soc && generate_c_header a) eqn:Hc;
    [| destruct (cli_soc && generate_ld_script a) eqn:Hl;
       [| destruct (keep_files a) eqn:Hk]];
    destruct callable; peel H; try subst e; try exact I; try reflexivity;
    try (split; reflexivity); try (cbn in H; contradiction).
  - subst kept. apply (Hbody "build"%string); [exact H | | |]; reflexivity.
  - subst kept. apply (Hbody "build"%string); [exact H | | |]; reflexivity.
  - cbn [fst] in H. apply in_app_or in H. destruct H as [H | H].
    + subst temp. apply (Hbody (tempdir w)); [exact H | | |]; reflexivity.
    + cbn in H. destruct H as [<- | []]. split; reflexivity.
  - cbn [fst] in H. apply in_app_or in H. destruct H as [H | H].
    + subst temp. apply (Hbody (tempdir w)); [exact H | | |]; reflexivity.
    + cbn in H. destruct H as [<- | []]. split; reflexivity.
Qed.

(** How the driver can end with a return. *)
Lemma cli_returns (cli_soc callable : bool) (a : Args) (f : bool) :
  snd (top_level_cli w cli_soc callable a) = Returns f ->
  f = (resolved_upload a || flash a)
  /\ (exists dir, In (Build (resolved_upload a) dir)
                     (fst (top_level_cli w cli_soc callable a)))
  /\ (flash a = true ->
      In ToolchainFlash (fst (top_level_cli w cli_soc callable a))).
Proof.
  unfold top_level_cli, try_finally.
  remember (build_steps w a "build") as kept eqn:Hkept.
  remember (build_steps w a (tempdir w)) as temp eqn:Htemp.
  unfold call, note.
  destruct callable;
    [destruct (fails w FragmentName); [| destruct (fails w CallFragment)] |];
    (destruct (cli_soc && generate_c_header a);
     [destruct (fails w GenerateCHeader)
     | destruct (cli_soc && generate_ld_script a);
       [destruct (fails w GenerateLdScript)
       | destruct (keep_files a);
         [| destruct (fails w MakeTempDir);
            [| destruct (fails w (RemoveTree (tempdir w)))]]]]);
    cbn [fst snd]; try discriminate; intros Hret; subst;
    destruct (build_steps_returns a _ f Hret) as (Hf & Hbuild & Hflash);
    (split; [exact Hf |]); split;
    try (eexists; cbn [In]; rewrite ?in_app_iff; eauto 8);
    intros Hfl; specialize (Hflash Hfl);
    cbn [In]; rewrite ?in_app_iff; eauto 8.
Qed.

(** X24: [--flash] overrides [--erase] and [--upload].  With [--flash]
    the flash is never erased and no build programs the board, whatever
    else was asked; and if the driver returns, it returns the fragment,
    having flashed it. *)
Theorem cli_flash_overrides (cli_soc callable : bool) (a : Args) :
  flash a = true ->
  ~ In ToolchainErase (fst (top_level_cli w cli_soc callable a))
  /\ (forall b d, In (Build b d) (fst (top_level_cli w cli_soc callable a)) ->
      b = false)
  /\ (forall f, snd (top_level_cli w cli_soc callable a) = Returns f ->
      f = true
      /\ In ToolchainFlash (fst (top_level_cli w cli_soc callable a))).
Proof.
  intros Hflash. split; [| split].
  - intros Hin. apply cli_events in Hin. cbn in Hin.
    unfold resolved_erase in Hin. rewrite Hflash in Hin. discriminate.
  - intros b d Hin. apply cli_events in Hin. cbn in Hin.
    destruct Hin as [-> _]. unfold resolved_upload. rewrite Hflash.
    reflexivity.
  - intros f Hret. destruct (cli_returns _ _ _ _ Hret) as (-> & _ & Hfl).
    split; [rewrite Hflash; apply orb_true_r | exact (Hfl Hflash)].
Qed.

(** X25: uploading is the default.  When neither an output file nor
    [--flash], [--erase] or [--dry-run] is given, every build programs the
    board, also without [--upload], and if the driver returns it returns
    the fragment. *)
Theorem cli_default_is_upload (cli_soc callable : bool) (a : Args) :
  output a = None ->
  flash a = false -> erase a = false -> dry_run a = false ->
  (forall b d, In (Build b d) (fst (top_level_cli w cli_soc callable a)) ->
   b = true)
  /\ (forall f, snd (top_level_cli w cli_soc callable a) = Returns f ->
      f = true).
Proof.
  intros Hout Hflash Herase Hdry.
  assert (Hup : resolved_upload a = true)
    by (unfold resolved_upload; rewrite Hout, Hflash, Herase, Hdry;
        reflexivity).
  split.
  - intros b d Hin. apply cli_events in Hin. cbn in Hin.
    destruct Hin as [-> _]. exact Hup.
  - intros f Hret. destruct (cli_returns _ _ _ _ Hret) as (-> & _).
    rewrite Hup. reflexivity.
Qed.

(** X26: the build directory and its removal.  Without [--keep-files],
    once the temporary directory exists ([mkdtemp()] was called and did not
    raise) the last thing the driver does is to remove it, whichever step of
    the build raised, and every build runs in it; with [--keep-files] no
    directory is made or removed and every build runs in [build]. *)
Theorem cli_build_directory (cli_soc callable : bool) (a : Args) :
  cli_soc && generate_c_header a = false ->
  cli_soc && generate_ld_script a = false ->
  (keep_files a = false ->
   In MakeTempDir (fst (top_level_cli w cli_soc callable a)) ->
   fails w MakeTempDir = false ->
   (exists before,
      fst (top_level_cli w cli_soc callable a)
      = before ++ [RemoveTree (tempdir w)])
   /\ forall b d,
        In (Build b d) (fst (top_level_cli w cli_soc callable a)) ->
        d = tempdir w)
  /\ (keep_files a = true ->
      forall e, In e (fst (top_level_cli w cli_soc callable a)) ->
        e <> MakeTempDir /\ is_remove e = false
        /\ forall b d, e = Build b d -> d = "build"%string).
Proof.
  intros Hc Hl. split.
  - intros Hkeep Hmade Htemp. split.
    + revert Hmade. unfold top_level_cli, try_finally, call, note.
      rewrite Hc, Hl, Hkeep, Htemp.
      destruct callable;
        [ destruct (fails w FragmentName);
          [| destruct (fails w CallFragment)] |];
        cbn [fst]; intros Hmade;
        try (cbn in Hmade; intuition discriminate);
        eexists; rewrite !app_comm_cons; reflexivity.
    + intros b d Hin. apply cli_events in Hin. cbn in Hin.
      rewrite Hkeep in Hin. apply Hin.
  - intros Hkeep e Hin. apply cli_events in Hin.
    destruct e as [| [] | | | | | | | | | | | |]; cbn in Hin;
      rewrite ?Hkeep in Hin;
      try (apply proj1 in Hin; discriminate Hin);
      try discriminate Hin;
      (split; [discriminate |]); (split; [reflexivity |]);
      intros b' d' Heq; try discriminate Heq.
    injection Heq as <- <-. apply Hin.
Qed.

(** X27: generating the C header does nothing else.  With [cli_soc] and
    [--generate-c-header], whatever the other options say (the
    linker-script option included) and whichever call raises, the driver
    touches neither platform nor file system: the only calls it makes are
    the read of the fragment's name, the logging set-up, the elaboration of
    a callable fragment and [generate_c_header()], and it never returns.
    When none of these calls raises it makes all of them in that order and
    exits with status 0. *)
Theorem cli_generate_header_only (callable : bool) (a : Args) :
  generate_c_header a = true ->
  (forall e, In e (fst (top_level_cli w true callable a)) ->
     e = FragmentName \/ e = SilenceUnused true
     \/ e = ConfigureLogging (isatty w) \/ e = CallFragment
     \/ e = GenerateCHeader)
  /\ (snd (top_level_cli w true callable a) = Exits 0
      \/ snd (top_level_cli w true callable a) = Raises)
  /\ ((callable = true ->
       fails w FragmentName = false /\ fails w CallFragment = false) ->
      fails w GenerateCHeader = false ->
      fst (top_level_cli w true callable a)
      = (if callable then [FragmentName] else [])
        ++ [SilenceUnused true; ConfigureLogging (isatty w)]
        ++ (if callable then [CallFragment] else [])
        ++ [GenerateCHeader]
      /\ snd (top_level_cli w true callable a) = Exits 0).
Proof.
  intros Hgen. unfold top_level_cli, call, note. rewrite Hgen. cbn [andb].
  split; [| split].
  - destruct callable;
      [ destruct (fails w FragmentName);
        [| destruct (fails w CallFragment)] |];
      destruct (fails w GenerateCHeader); cbn [fst In];
      intros e He; intuition (subst; auto).
  - destruct callable;
      [ destruct (fails w FragmentName);
        [| destruct (fails w CallFragment)] |];
      destruct (fails w GenerateCHeader); cbn [snd]; auto.
  - intros Hfrag Hhdr. rewrite Hhdr.
    destruct callable; [destruct (Hfrag eq_refl) as [-> ->] |];
      split; reflexivity.
Qed.

(** X28: the fragment is returned only for a programmed board.  If the
    driver returns the fragment, then a build that programs the board or a
    flash of its configuration memory has happened; if it returns [None],
    no build programmed the board and nothing was flashed. *)
Theorem cli_returns_fragment_iff_programmed
    (cli_soc callable : bool) (a : Args) (f : bool) :
  snd (top_level_cli w cli_soc callable a) = Returns f ->
  (f = true ->
   (exists d, In (Build true d) (fst (top_level_cli w cli_soc callable a)))
   \/ In ToolchainFlash (fst (top_level_cli w cli_soc callable a)))
  /\ (f = false ->
      (forall b d,
         In (Build b d) (fst (top_level_cli w cli_soc callable a)) ->
         b = false)
      /\ ~ In ToolchainFlash (fst (top_level_cli w cli_soc callable a))).
Proof.
  intros Hret.
  destruct (cli_returns _ _ _ _ Hret) as (Hf & (dir & Hbuild) & Hflash).
  split.
  - intros ->. symmetry in Hf. apply orb_true_iff in Hf.
    destruct Hf as [Hup | Hfl].
    + left. exists dir. rewrite Hup in Hbuild. exact Hbuild.
    + right. exact (Hflash Hfl).
  - intros ->. symmetry in Hf. apply orb_false_iff in Hf.
    destruct Hf as [Hup Hfl]. split.
    + intros b d Hin. apply cli_events in Hin. cbn in Hin.
      destruct Hin as [-> _]. exact Hup.
    + intros Hin. apply cli_events in Hin. cbn in Hin. congruence.
Qed.

(** X29: an empty output name.  [--output] with an empty file name counts
    as given when the default action is chosen, so nothing is uploaded by
    default, but as absent when the bitstream is to be written: no file is
    written. *)
Theorem cli_empty_output_name (cli_soc callable : bool) (a : Args) :
  output a = Some EmptyString ->
  (forall name,
     ~ In (WriteFile name) (fst (top_level_cli w cli_soc callable a)))
  /\ (upload a = false ->
      forall b d,
        In (Build b d) (fst (top_level_cli w cli_soc callable a)) ->
        b = false).
Proof.
  intros Hout. split.
  - intros name Hin. apply cli_events in Hin. cbn in Hin.
    destruct Hin as [Hsome Hne]. rewrite Hout in Hsome.
    injection Hsome as <-. apply Hne. reflexivity.
  - intros Hup b d Hin. apply cli_events in Hin. cbn in Hin.
    destruct Hin as [-> _]. unfold resolved_upload.
    rewrite Hout, Hup. cbn. destruct (flash a); reflexivity.
Qed.

End CliProperties.

(** ** The further properties at concrete inputs *)

Lemma setup_packet_captured_witness :
  SyncFIFOBuffered.contents (SetupFIFOInterface.fifo SetupSamples.captured)
    <> []
  /\ SyncFIFOBuffered.contents
       (SetupFIFOInterface.fifo
          (SetupFIFOInterface.run
             (SetupFIFOInterface.tick SetupSamples.captured
                (SetupSamples.token_arrives 0))
             (map (SetupSamples.data_byte 0) [0x21; 0x09; 0x300])))
     = [0x21; 0x09; 0x00].
Proof.
  split; [discriminate |].
  apply (setup_packet_captured SetupSamples.captured
           (SetupSamples.token_arrives 0) [0x21; 0x09; 0x300]);
    [reflexivity | repeat constructor | cbn; lia].
Defined.

Lemma setup_packet_round_trip_witness :
  SetupObservations.read_out
    (SetupFIFOInterface.run
       (SetupFIFOInterface.tick SetupSamples.captured
          (SetupSamples.token_arrives 0))
       (map (SetupSamples.data_byte 0) [0x21; 0x09; 0x300]
        ++ [SetupSamples.response_due 0]))
    [MoreSamples.setup_read; MoreSamples.setup_read; MoreSamples.setup_read]
  = [0x21; 0x09; 0x00].
Proof.
  apply (setup_packet_round_trip SetupSamples.captured
           (SetupSamples.token_arrives 0) (SetupSamples.response_due 0)
           [0x21; 0x09; 0x300]
           (map (SetupSamples.data_byte 0) [0x21; 0x09; 0x300])
           [MoreSamples.setup_read; MoreSamples.setup_read;
            MoreSamples.setup_read]);
    [reflexivity | repeat constructor | cbn; lia | repeat constructor
    | repeat constructor | reflexivity].
Defined.

Lemma setup_fifo_ignores_other_traffic_witness :
  SyncFIFOBuffered.contents
    (SetupFIFOInterface.fifo
       (SetupFIFOInterface.run SetupSamples.captured
          [SetupSamples.idle; SetupSamples.idle]))
  = [0x80; 0x06; 0x00; 0x01; 0x00; 0x00; 0x40; 0x00].
Proof.
  apply (setup_fifo_ignores_other_traffic
           [SetupSamples.idle; SetupSamples.idle] SetupSamples.captured).
  repeat constructor.
Defined.

Lemma tx_first_only_in_send_data_witness :
  InFIFOInterface.fsm
    (InFIFOInterface.tick 64 MoreSamples.in_primed_three
       (InSamples.bus (in_token 2) false))
  = InFIFOInterface.SEND_DATA.
Proof.
  apply (tx_first_only_in_send_data 64
           (InFIFOInterface.tick 64 MoreSamples.in_primed_three
              (InSamples.bus (in_token 2) false))).
  - apply InFIFOInterface.reach_tick.
    apply in_reachable_run. apply InFIFOInterface.reach_reset.
  - reflexivity.
Defined.

Lemma in_counter_tracks_fifo_witness :
  InFIFOInterface.bytes_in_fifo MoreSamples.in_primed_three = 3.
Proof.
  apply (in_counter_tracks_fifo 64 ltac:(lia) MoreSamples.in_primed_three).
  apply in_reachable_run. apply InFIFOInterface.reach_reset.
Defined.

Lemma in_packet_transmitted_witness :
  InObservations.sent 64
    (InFIFOInterface.tick 64 MoreSamples.in_primed_three
       (InSamples.bus (in_token 2) false))
    [InSamples.bus (in_token 2) true; InSamples.bus (in_token 2) true;
     InSamples.bus (in_token 2) true]
  = [(1, true, false); (2, false, false); (3, false, true)].
Proof.
  apply (in_packet_transmitted 64 ltac:(lia) MoreSamples.in_primed_three
           (InSamples.bus (in_token 2) false)
           [InSamples.bus (in_token 2) true; InSamples.bus (in_token 2) true;
            InSamples.bus (in_token 2) true]);
    [ apply in_reachable_run; apply InFIFOInterface.reach_reset
    | reflexivity | reflexivity | reflexivity | reflexivity | reflexivity
    | split; reflexivity | repeat constructor | reflexivity ].
Defined.

Lemma in_unprimed_never_transmits_witness :
  InObservations.sent 64
    (InFIFOInterface.run 64 InFIFOInterface.reset_state
       [InSamples.write_byte 7; InSamples.idle])
    [InSamples.bus (in_token 0) true; InSamples.bus (in_token 0) true]
  = [].
Proof.
  apply (in_unprimed_never_transmits 64
           [InSamples.bus (in_token 0) true; InSamples.bus (in_token 0) true]
           (InFIFOInterface.run 64 InFIFOInterface.reset_state
              [InSamples.write_byte 7; InSamples.idle]));
    [reflexivity | repeat constructor].
Defined.

Lemma in_primed_packet_survives_polling_witness :
  SyncFIFOBuffered.contents
    (InFIFOInterface.fifo
       (InFIFOInterface.run 64 MoreSamples.in_primed_three
          [InSamples.bus (in_token 5) true; InSamples.idle]))
  = [1; 2; 3].
Proof.
  apply (in_primed_packet_survives_polling 64
           [InSamples.bus (in_token 5) true; InSamples.idle]
           MoreSamples.in_primed_three);
    [ reflexivity
    | constructor;
      [ split; [right; intros H; vm_compute in H; discriminate H
               | repeat split]
      | constructor;
        [ split; [left; reflexivity | repeat split]
        | constructor ] ] ].
Defined.

Lemma in_toggle_only_by_controller_witness :
  InFIFOInterface.pid_r_data
    (InFIFOInterface.run 64 MoreSamples.in_primed_three
       [InSamples.bus (in_token 2) false; InSamples.bus (in_token 2) true])
  = false.
Proof.
  apply (in_toggle_only_by_controller 64
           [InSamples.bus (in_token 2) false; InSamples.bus (in_token 2) true]
           MoreSamples.in_primed_three).
  repeat constructor.
Defined.

Lemma in_setup_clears_stall_witness :
  InFIFOInterface.stalled InSamples.ep0_stalled
    (InSamples.bus (in_token 0) false) = true
  /\ InFIFOInterface.stalled
       (InFIFOInterface.tick 64 InSamples.ep0_stalled
          (MoreSamples.in_setup_and_stall 0))
       (InSamples.bus (in_token 0) false) = false.
Proof.
  split; [reflexivity |].
  apply (in_setup_clears_stall 64 InSamples.ep0_stalled
           (MoreSamples.in_setup_and_stall 0)
           (InSamples.bus (in_token 0) false));
    reflexivity.
Defined.

Lemma in_handshakes_exclusive_witness :
  InFIFOInterface.stall
    (InFIFOInterface.comb InSamples.primed_and_stalled InSamples.idle)
  = false.
Proof.
  apply (proj2 (proj2 (in_handshakes_exclusive
                         InSamples.primed_and_stalled InSamples.idle))).
  reflexivity.
Defined.

Lemma in_reset_discards_primed_packet_witness :
  InFIFOInterface.fsm
    (InFIFOInterface.tick 64
       (InFIFOInterface.tick 64 MoreSamples.in_primed_three
          MoreSamples.in_reset)
       (InSamples.bus (in_token 2) false))
  = InFIFOInterface.SEND_ZLP.
Proof.
  apply (in_reset_discards_primed_packet 64 MoreSamples.in_primed_three
           MoreSamples.in_reset (InSamples.bus (in_token 2) false));
    reflexivity.
Defined.

Lemma out_exactly_one_handshake_witness :
  (OutFIFOInterface.ack
     (OutFIFOInterface.comb OutSamples.receiving (OutSamples.response_due 1)),
   OutFIFOInterface.stall
     (OutFIFOInterface.comb OutSamples.receiving (OutSamples.response_due 1)),
   OutFIFOInterface.nak
     (OutFIFOInterface.comb OutSamples.receiving (OutSamples.response_due 1)))
  = (true, false, false)
  \/ (OutFIFOInterface.ack
        (OutFIFOInterface.comb OutSamples.receiving
           (OutSamples.response_due 1)),
      OutFIFOInterface.stall
        (OutFIFOInterface.comb OutSamples.receiving
           (OutSamples.response_due 1)),
      OutFIFOInterface.nak
        (OutFIFOInterface.comb OutSamples.receiving
           (OutSamples.response_due 1)))
     = (false, true, false)
  \/ (OutFIFOInterface.ack
        (OutFIFOInterface.comb OutSamples.receiving
           (OutSamples.response_due 1)),
      OutFIFOInterface.stall
        (OutFIFOInterface.comb OutSamples.receiving
           (OutSamples.response_due 1)),
      OutFIFOInterface.nak
        (OutFIFOInterface.comb OutSamples.receiving
           (OutSamples.response_due 1)))
     = (false, false, true).
Proof.
  apply (proj1 (out_exactly_one_handshake OutSamples.receiving
                  (OutSamples.response_due 1)));
    reflexivity.
Defined.

Lemma out_stall_beats_arm_witness :
  OutFIFOInterface.enable_r_data MoreSamples.out_armed_and_stalled = true
  /\ OutFIFOInterface.stall
       (OutFIFOInterface.comb MoreSamples.out_armed_and_stalled
          (OutSamples.response_due 1)) = true.
Proof.
  split; [reflexivity |].
  apply (out_stall_beats_arm MoreSamples.out_armed_and_stalled
           (OutSamples.response_due 1));
    reflexivity.
Defined.

Lemma out_packet_received_witness :
  SyncFIFOBuffered.contents
    (OutFIFOInterface.fifo
       (OutFIFOInterface.tick
          (OutFIFOInterface.run MoreSamples.out_armed
             (map (OutSamples.data_byte 1) [0x11; 0x22]))
          (OutSamples.response_due 1)))
  = [0x11; 0x22].
Proof.
  apply (out_packet_received MoreSamples.out_armed 1 [0x11; 0x22]
           (map (OutSamples.data_byte 1) [0x11; 0x22])
           (OutSamples.response_due 1));
    [ reflexivity | reflexivity | reflexivity | repeat constructor
    | vm_compute; discriminate | repeat constructor ].
Defined.

Lemma out_packet_round_trip_witness :
  OutObservations.read_out
    (OutFIFOInterface.tick
       (OutFIFOInterface.run MoreSamples.out_armed
          (map (OutSamples.data_byte 1) [0x11; 0x22]))
       (OutSamples.response_due 1))
    [MoreSamples.out_read; MoreSamples.out_read]
  = [0x11; 0x22].
Proof.
  apply (out_packet_round_trip MoreSamples.out_armed 1 [0x11; 0x22]
           (map (OutSamples.data_byte 1) [0x11; 0x22])
           [MoreSamples.out_read; MoreSamples.out_read]
           (OutSamples.response_due 1));
    [ reflexivity | reflexivity | reflexivity | reflexivity
    | repeat constructor | vm_compute; lia | repeat constructor
    | repeat constructor | reflexivity ].
Defined.

Lemma out_stall_persists_witness :
  OutFIFOInterface.epno_r_data
    (OutFIFOInterface.run MoreSamples.out_armed_and_stalled
       [OutSamples.select 3; OutSamples.arm true]) = 3
  /\ array_get
       (OutFIFOInterface.endpoint_stalled
          (OutFIFOInterface.run MoreSamples.out_armed_and_stalled
             [OutSamples.select 3; OutSamples.arm true])) 1
     = true.
Proof.
  split; [reflexivity |].
  apply (out_stall_persists 1 [OutSamples.select 3; OutSamples.arm true]
           MoreSamples.out_armed_and_stalled).
  constructor; [split; [reflexivity | left; reflexivity] |].
  constructor; [split; [reflexivity | left; reflexivity] |].
  constructor.
Defined.

Lemma out_stall_write_read_witness :
  array_get
    (OutFIFOInterface.endpoint_stalled
       (OutFIFOInterface.tick MoreSamples.out_armed
          (MoreSamples.out_set_stall true))) 1
  = true.
Proof.
  apply (out_stall_write_read MoreSamples.out_armed
           (MoreSamples.out_set_stall true));
    reflexivity.
Defined.

Lemma stream_out_unpacks_element_witness :
  USBStreamOutEndpoint.stream_payload
    (USBStreamOutEndpoint.comb StreamSamples.cfg
       MoreSamples.stream_one_element StreamSamples.consume) = 0x5A
  /\ USBStreamOutEndpoint.stream_last
       (USBStreamOutEndpoint.comb StreamSamples.cfg
          MoreSamples.stream_one_element StreamSamples.consume) = true.
Proof.
  split;
    apply (stream_out_unpacks_element StreamSamples.cfg
             MoreSamples.stream_one_element StreamSamples.consume
             0x5A true false []);
    reflexivity.
Defined.

Lemma stream_out_ping_is_nakked_witness :
  USBStreamOutEndpoint.sufficient_space StreamSamples.cfg
    USBStreamOutEndpoint.reset_state = true
  /\ USBStreamOutEndpoint.nak
       (USBStreamOutEndpoint.comb StreamSamples.cfg
          USBStreamOutEndpoint.reset_state
          (StreamSamples.bus (ping_token 1) false)) = true.
Proof.
  split; [reflexivity |].
  apply (stream_out_ping_is_nakked StreamSamples.cfg
           USBStreamOutEndpoint.reset_state
           (StreamSamples.bus (ping_token 1) false));
    reflexivity.
Defined.

Lemma stream_out_handshakes_witness :
  USBStreamOutEndpoint.ack
    (USBStreamOutEndpoint.comb StreamSamples.cfg StreamSamples.one_received
       (StreamSamples.response_due 1 true))
  = negb (USBStreamOutEndpoint.nak
            (USBStreamOutEndpoint.comb StreamSamples.cfg
               StreamSamples.one_received
               (StreamSamples.response_due 1 true))).
Proof.
  apply (proj2 (proj2 (stream_out_handshakes StreamSamples.cfg
                         StreamSamples.one_received
                         (StreamSamples.response_due 1 true))));
    reflexivity.
Defined.

Lemma stream_out_ignores_other_traffic_witness :
  USBStreamOutEndpoint.run StreamSamples.cfg StreamSamples.one_received
    [StreamSamples.data_byte 2 true 0x99; StreamSamples.crc_valid 2 true;
     StreamSamples.response_due 2 true]
  = StreamSamples.one_received.
Proof.
  apply (stream_out_ignores_other_traffic StreamSamples.cfg
           [StreamSamples.data_byte 2 true 0x99;
            StreamSamples.crc_valid 2 true;
            StreamSamples.response_due 2 true]
           StreamSamples.one_received).
  repeat constructor.
Defined.

Lemma stream_out_accept_then_duplicate_witness :
  USBStreamOutEndpoint.should_skip StreamSamples.cfg
    (USBStreamOutEndpoint.tick StreamSamples.cfg
       USBStreamOutEndpoint.reset_state (StreamSamples.response_due 1 false))
    (StreamSamples.response_due 1 false)
  = true.
Proof.
  apply (stream_out_accept_then_duplicate StreamSamples.cfg
           USBStreamOutEndpoint.reset_state
           (StreamSamples.response_due 1 false));
    reflexivity.
Defined.

Lemma cli_flash_overrides_witness :
  TopLevelCli.erase MoreSamples.flash_erase_upload = true
  /\ ~ In TopLevelCli.ToolchainErase
         (fst (TopLevelCli.top_level_cli MoreSamples.calm_world true true
                 MoreSamples.flash_erase_upload)).
Proof.
  split; [reflexivity |].
  apply (cli_flash_overrides MoreSamples.calm_world true true
           MoreSamples.flash_erase_upload).
  reflexivity.
Defined.

Lemma cli_default_is_upload_witness :
  TopLevelCli.upload MoreSamples.no_options = false
  /\ (forall b d,
        In (TopLevelCli.Build b d)
           (fst (TopLevelCli.top_level_cli MoreSamples.calm_world false true
                   MoreSamples.no_options)) ->
        b = true).
Proof.
  split; [reflexivity |].
  apply (cli_default_is_upload MoreSamples.calm_world false true
           MoreSamples.no_options);
    reflexivity.
Defined.

Lemma cli_build_directory_witness :
  snd (TopLevelCli.top_level_cli MoreSamples.failing_build false true
         MoreSamples.no_options) = TopLevelCli.Raises
  /\ exists before,
       fst (TopLevelCli.top_level_cli MoreSamples.failing_build false true
              MoreSamples.no_options)
       = before ++ [TopLevelCli.RemoveTree "/tmp/tmpk3"%string].
Proof.
  split; [reflexivity |].
  apply (proj1 (cli_build_directory MoreSamples.failing_build false true
                  MoreSamples.no_options eq_refl eq_refl));
    [reflexivity | vm_compute; tauto | reflexivity].
Defined.

Lemma cli_generate_header_only_witness :
  fst (TopLevelCli.top_level_cli MoreSamples.calm_world true true
         MoreSamples.header_and_more)
  = [TopLevelCli.FragmentName; TopLevelCli.SilenceUnused true;
     TopLevelCli.ConfigureLogging true; TopLevelCli.CallFragment;
     TopLevelCli.GenerateCHeader]
  /\ snd (TopLevelCli.top_level_cli MoreSamples.calm_world true true
            MoreSamples.header_and_more) = TopLevelCli.Exits 0.
Proof.
  apply (proj2 (proj2 (cli_generate_header_only MoreSamples.calm_world true
                         MoreSamples.header_and_more eq_refl)));
    [intros _; split; reflexivity | reflexivity].
Defined.

Lemma cli_returns_fragment_iff_programmed_witness :
  ~ In TopLevelCli.ToolchainFlash
      (fst (TopLevelCli.top_level_cli MoreSamples.calm_world false true
              MoreSamples.dry_run_only)).
Proof.
  apply (proj2 (cli_returns_fragment_iff_programmed MoreSamples.calm_world
                  false true MoreSamples.dry_run_only false eq_refl)).
  reflexivity.
Defined.

Lemma cli_empty_output_name_witness :
  snd (TopLevelCli.top_level_cli MoreSamples.calm_world false false
         MoreSamples.empty_output) = TopLevelCli.Returns false
  /\ ~ In (TopLevelCli.WriteFile EmptyString)
        (fst (TopLevelCli.top_level_cli MoreSamples.calm_world false false
                MoreSamples.empty_output)).
Proof.
  split; [reflexivity |].
  apply (proj1 (cli_empty_output_name MoreSamples.calm_world false false
                  MoreSamples.empty_output eq_refl) EmptyString).
Defined.
